(** * The ARMv7-M interrupt protocol of avatar2

    A shallow embedding of [avatar2/protocols/armv7m_interrupt.py]:
    the two ctypes records exchanged over the POSIX message queues, and the
    [ARMV7MInterruptProtocol] thread object with its listener loop ([run]),
    its life cycle ([enable_interrupts], [stop], [shutdown]) and the monitor
    commands it issues ([enable_interrupts], [inject_interrupt]).

    Python values are modelled as follows.
    - integers are [Z]; a ctypes field of [n] bytes stores its value
      modulo [2 ^ (8 * n)];
    - a byte string is a [list byte];
    - the dictionary passed to [execute_command] is a [gmap string PyVal];
    - a raised exception, a returned value and a call that never returns are
      the three cases of [Outcome];
    - instance attributes, the listener thread, the avatar queue, the open
      message-queue descriptors and the emitted effects form the state [Sys],
      threaded through the methods by the monad [M]. *)

From Stdlib Require Import ZArith List Lia.
From coqutil Require Import Byte Word.LittleEndianList.
From stdpp Require Import gmap strings list.

Local Open Scope Z_scope.

(** ** Exceptions and outcomes *)

(** The exception classes that occur in the module.  [KeyboardInterrupt]
    stands for the classes that derive from [BaseException] only: a bare
    [except:] catches them, [except Exception] does not. *)
Inductive PyExn : Type :=
| Exception (fmt : string) (arg : string)
| ValueError
| AttributeError
| OSError
| ExistentialError
| BusyError
| PermissionsError
| SignalError
| RuntimeError
| KeyboardInterrupt.

Definition isinstance_Exception (e : PyExn) : bool :=
  match e with
  | KeyboardInterrupt => false
  | _ => true
  end.

Definition isinstance_ExistentialError (e : PyExn) : bool :=
  match e with
  | ExistentialError => true
  | _ => false
  end.

(** What a call does: it returns, it raises, or it never comes back. *)
Inductive Outcome (A : Type) : Type :=
| Return (a : A)
| Raise (e : PyExn)
| BlockForever.
Arguments Return {A} a.
Arguments Raise {A} e.
Arguments BlockForever {A}.

(** ** ctypes structures *)

(** [sys.byteorder]: a [ctypes.Structure] lays its fields out in the byte
    order of the host. *)
Inductive ByteOrder : Type := little | big.

Inductive ctype : Type := c_uint32 | c_uint64.

Definition ctype_size (t : ctype) : nat :=
  match t with
  | c_uint32 => 4
  | c_uint64 => 8
  end.

(** Fields are placed at the next multiple of their own size, and the size
    of the structure is rounded up to its largest field. *)
Definition align_to (a off : nat) : nat := (((off + a - 1) / a) * a)%nat.

Fixpoint layout (off : nat) (fields : list (string * ctype))
  : list (string * (nat * ctype)) :=
  match fields with
  | [] => []
  | (name, t) :: rest =>
      let o := align_to (ctype_size t) off in
      (name, (o, t)) :: layout (o + ctype_size t) rest
  end.

Fixpoint fields_end (off : nat) (fields : list (string * ctype)) : nat :=
  match fields with
  | [] => off
  | (_, t) :: rest => fields_end (align_to (ctype_size t) off + ctype_size t) rest
  end.

Definition alignment (fields : list (string * ctype)) : nat :=
  foldr (fun f a => Nat.max (ctype_size f.2) a) 1%nat fields.

Definition sizeof (fields : list (string * ctype)) : nat :=
  align_to (alignment fields) (fields_end 0 fields).

Section Buffer.
Variable byteorder : ByteOrder.

(** The [n] bytes of an unsigned integer, in host order. *)
Definition int_to_bytes (n : nat) (v : Z) : list byte :=
  match byteorder with
  | little => le_split n v
  | big => rev (le_split n v)
  end.

Definition int_from_bytes (bs : list byte) : Z :=
  match byteorder with
  | little => le_combine bs
  | big => le_combine (rev bs)
  end.

(** Reading and writing a field of [n] bytes at offset [off] of the
    buffer that backs a structure. *)
Definition getfield (off n : nat) (buf : list byte) : Z :=
  int_from_bytes (take n (drop off buf)).

Definition setfield (off n : nat) (v : Z) (buf : list byte) : list byte :=
  take off buf ++ int_to_bytes n v ++ drop (off + n) buf.
End Buffer.

(** [cls.from_buffer_copy(source)]: a structure backed by a copy of the
    first [size] bytes of [source]; [ValueError] when [source] is too
    small. *)
Definition from_buffer_copy (size : nat) (source : list byte)
  : Outcome (list byte) :=
  if (length source <? size)%nat then Raise ValueError
  else Return (take size source).

Module V7MInterruptExitReq.
Definition _fields_ : list (string * ctype) :=
  [("id", c_uint64); ("num_irq", c_uint32); ("type", c_uint32)].

Definition size : nat := 16.

Section Fields.
Variable byteorder : ByteOrder.

Definition id (s : list byte) : Z := getfield byteorder 0 8 s.
Definition num_irq (s : list byte) : Z := getfield byteorder 8 4 s.
Definition type (s : list byte) : Z := getfield byteorder 12 4 s.

(** [V7MInterruptExitReq(id, num_irq, type)]: a zeroed buffer whose
    fields are then set in order. *)
Definition new (id num_irq type : Z) : list byte :=
  setfield byteorder 12 4 type
    (setfield byteorder 8 4 num_irq
       (setfield byteorder 0 8 id (replicate size Byte.x00))).
End Fields.
End V7MInterruptExitReq.

Module V7MInterruptExitResp.
Definition _fields_ : list (string * ctype) :=
  [("id", c_uint64); ("success", c_uint32)].

Definition size : nat := 16.

Section Fields.
Variable byteorder : ByteOrder.

Definition id (s : list byte) : Z := getfield byteorder 0 8 s.
Definition success (s : list byte) : Z := getfield byteorder 8 4 s.

Definition new (id success : Z) : list byte :=
  setfield byteorder 8 4 success
    (setfield byteorder 0 8 id (replicate size Byte.x00)).
End Fields.
End V7MInterruptExitResp.

(** ** The world around the protocol *)

(** The target that owns the protocol, as far as the module looks at it:
    its class, whether it is an instance of [QemuTarget], and the queue
    names of its remote-memory protocol. *)
Record Target : Type := {
  target_class : string;
  isinstance_QemuTarget : bool;
  remote_memory_rx_queue_name : string;
  remote_memory_tx_queue_name : string
}.

Inductive PyVal : Type := PyStr (s : string) | PyInt (n : Z).

(** The one message class the module instantiates, with the arguments of
    the constructor call in [run]. *)
Inductive Message : Type :=
| RemoteInterruptExitMessage (origin : Target) (id type num_irq : Z).

Inductive OFlag : Type := O_RDONLY | O_WRONLY.

(** A [posix_ipc.MessageQueue] object, that is, one open descriptor. *)
Record MessageQueue : Type := {
  mq_name : string;
  mq_flags : OFlag;
  mq_read : bool;
  mq_write : bool
}.

#[global] Instance OFlag_eq_dec : EqDecision OFlag.
Proof. solve_decision. Defined.
#[global] Instance MessageQueue_eq_dec : EqDecision MessageQueue.
Proof. solve_decision. Defined.

Inductive Level : Type := DEBUG | INFO | WARNING | ERROR.

Inductive LogArg : Type :=
| ArgInt (n : Z)
| ArgExn (e : PyExn)
| ArgTarget (t : Target).

(** Everything the protocol does to its surroundings, in the order in
    which it happens.  [raised] is the exception the call ended with, if
    any. *)
Inductive Effect : Type :=
| monitor_execute_command (name : string) (params : gmap string PyVal)
| mq_open (name : string) (flags : OFlag) (read write : bool)
    (raised : option PyExn)
| mq_receive (q : MessageQueue) (timeout_ms : Z)
| mq_send (q : MessageQueue) (payload : list byte) (raised : option PyExn)
| mq_unlink (q : MessageQueue) (raised : option PyExn)
| mq_close (q : MessageQueue) (raised : option PyExn)
| log_record (level : Level) (fmt : string) (args : list LogArg)
| print (text : string)
| thread_start.

(** The monitor and the message queues are outside the module: whether the
    [k]-th call into them raises, and what, is given from outside. *)
Definition Env : Type := nat -> option PyExn.

(** Where the listener thread is.  The loop of [run] blocks in [receive]
    only; between two iterations the thread is [AtLoopHead]. *)
Inductive Listener : Type :=
| NotStarted
| AtLoopHead
| InReceive
| Finished
| Died (e : PyExn).

(** What a [receive(0.5)] ends with, and after how many milliseconds. *)
Inductive Received : Type :=
| message (payload : list byte) (priority : Z) (waited : Z)
| receive_raised (e : PyExn) (waited : Z).

Definition waited_of (r : Received) : Z :=
  match r with
  | message _ _ w => w
  | receive_raised _ w => w
  end.

(** The timeout of the [receive] call in [run], in milliseconds. *)
Definition poll_timeout_ms : Z := 500.

(** ** The state *)

(** The attributes of the instance ([_rx_queue_name] to [daemon]), its
    thread, the avatar queue (unbounded: [put] appends and does not wait),
    the descriptors the process holds, the effects so far, the number of
    calls made into the environment, and the time, in milliseconds, that the
    listener has spent in [receive] calls.  [receive] is the only call of
    the listener that waits, so [polled] is the clock of the listener. *)
Record Sys : Type := {
  _rx_queue_name : string;
  _tx_queue_name : string;
  _rx_queue : option MessageQueue;
  _tx_queue : option MessageQueue;
  _origin : Target;
  _close : bool;
  _closed : bool;
  daemon : bool;
  listener : Listener;
  _avatar_queue : list Message;
  descriptors : list MessageQueue;
  trace : list Effect;
  calls : nat;
  polled : Z
}.

Definition set_rx_queue (v : option MessageQueue) (s : Sys) : Sys :=
  {| _rx_queue_name := _rx_queue_name s; _tx_queue_name := _tx_queue_name s;
     _rx_queue := v; _tx_queue := _tx_queue s; _origin := _origin s;
     _close := _close s; _closed := _closed s; daemon := daemon s;
     listener := listener s; _avatar_queue := _avatar_queue s;
     descriptors := descriptors s; trace := trace s; calls := calls s;
     polled := polled s |}.

Definition set_tx_queue (v : option MessageQueue) (s : Sys) : Sys :=
  {| _rx_queue_name := _rx_queue_name s; _tx_queue_name := _tx_queue_name s;
     _rx_queue := _rx_queue s; _tx_queue := v; _origin := _origin s;
     _close := _close s; _closed := _closed s; daemon := daemon s;
     listener := listener s; _avatar_queue := _avatar_queue s;
     descriptors := descriptors s; trace := trace s; calls := calls s;
     polled := polled s |}.

Definition set_close (v : bool) (s : Sys) : Sys :=
  {| _rx_queue_name := _rx_queue_name s; _tx_queue_name := _tx_queue_name s;
     _rx_queue := _rx_queue s; _tx_queue := _tx_queue s; _origin := _origin s;
     _close := v; _closed := _closed s; daemon := daemon s;
     listener := listener s; _avatar_queue := _avatar_queue s;
     descriptors := descriptors s; trace := trace s; calls := calls s;
     polled := polled s |}.

Definition set_closed (v : bool) (s : Sys) : Sys :=
  {| _rx_queue_name := _rx_queue_name s; _tx_queue_name := _tx_queue_name s;
     _rx_queue := _rx_queue s; _tx_queue := _tx_queue s; _origin := _origin s;
     _close := _close s; _closed := v; daemon := daemon s;
     listener := listener s; _avatar_queue := _avatar_queue s;
     descriptors := descriptors s; trace := trace s; calls := calls s;
     polled := polled s |}.

Definition set_daemon (v : bool) (s : Sys) : Sys :=
  {| _rx_queue_name := _rx_queue_name s; _tx_queue_name := _tx_queue_name s;
     _rx_queue := _rx_queue s; _tx_queue := _tx_queue s; _origin := _origin s;
     _close := _close s; _closed := _closed s; daemon := v;
     listener := listener s; _avatar_queue := _avatar_queue s;
     descriptors := descriptors s; trace := trace s; calls := calls s;
     polled := polled s |}.

Definition set_listener (v : Listener) (s : Sys) : Sys :=
  {| _rx_queue_name := _rx_queue_name s; _tx_queue_name := _tx_queue_name s;
     _rx_queue := _rx_queue s; _tx_queue := _tx_queue s; _origin := _origin s;
     _close := _close s; _closed := _closed s; daemon := daemon s;
     listener := v; _avatar_queue := _avatar_queue s;
     descriptors := descriptors s; trace := trace s; calls := calls s;
     polled := polled s |}.

Definition set_avatar_queue (v : list Message) (s : Sys) : Sys :=
  {| _rx_queue_name := _rx_queue_name s; _tx_queue_name := _tx_queue_name s;
     _rx_queue := _rx_queue s; _tx_queue := _tx_queue s; _origin := _origin s;
     _close := _close s; _closed := _closed s; daemon := daemon s;
     listener := listener s; _avatar_queue := v;
     descriptors := descriptors s; trace := trace s; calls := calls s;
     polled := polled s |}.

Definition set_descriptors (v : list MessageQueue) (s : Sys) : Sys :=
  {| _rx_queue_name := _rx_queue_name s; _tx_queue_name := _tx_queue_name s;
     _rx_queue := _rx_queue s; _tx_queue := _tx_queue s; _origin := _origin s;
     _close := _close s; _closed := _closed s; daemon := daemon s;
     listener := listener s; _avatar_queue := _avatar_queue s;
     descriptors := v; trace := trace s; calls := calls s;
     polled := polled s |}.

Definition set_trace (v : list Effect) (s : Sys) : Sys :=
  {| _rx_queue_name := _rx_queue_name s; _tx_queue_name := _tx_queue_name s;
     _rx_queue := _rx_queue s; _tx_queue := _tx_queue s; _origin := _origin s;
     _close := _close s; _closed := _closed s; daemon := daemon s;
     listener := listener s; _avatar_queue := _avatar_queue s;
     descriptors := descriptors s; trace := v; calls := calls s;
     polled := polled s |}.

Definition set_calls (v : nat) (s : Sys) : Sys :=
  {| _rx_queue_name := _rx_queue_name s; _tx_queue_name := _tx_queue_name s;
     _rx_queue := _rx_queue s; _tx_queue := _tx_queue s; _origin := _origin s;
     _close := _close s; _closed := _closed s; daemon := daemon s;
     listener := listener s; _avatar_queue := _avatar_queue s;
     descriptors := descriptors s; trace := trace s; calls := v;
     polled := polled s |}.

Definition set_polled (v : Z) (s : Sys) : Sys :=
  {| _rx_queue_name := _rx_queue_name s; _tx_queue_name := _tx_queue_name s;
     _rx_queue := _rx_queue s; _tx_queue := _tx_queue s; _origin := _origin s;
     _close := _close s; _closed := _closed s; daemon := daemon s;
     listener := listener s; _avatar_queue := _avatar_queue s;
     descriptors := descriptors s; trace := trace s; calls := calls s;
     polled := v |}.

(** ** The monad of the methods *)

Definition M (A : Type) : Type := Sys -> Outcome A * Sys.

#[global] Instance M_ret : MRet M := fun A a s => (Return a, s).

#[global] Instance M_bind : MBind M := fun A B f m s =>
  match m s with
  | (Return a, s') => f a s'
  | (Raise e, s') => (Raise e, s')
  | (BlockForever, s') => (BlockForever, s')
  end.

Definition get : M Sys := fun s => (Return s, s).
Definition modify (f : Sys -> Sys) : M unit := fun s => (Return tt, f s).
Definition raise {A : Type} (e : PyExn) : M A := fun s => (Raise e, s).
Definition lift {A : Type} (o : Outcome A) : M A := fun s => (o, s).

Definition emit (e : Effect) : M unit :=
  modify (fun s => set_trace (trace s ++ [e]) s).

Definition log (level : Level) (fmt : string) (args : list LogArg) : M unit :=
  emit (log_record level fmt args).

(** [try: body except <catches> as e: handler e] *)
Definition try_except {A : Type} (body : M A) (catches : PyExn -> bool)
  (handler : PyExn -> M A) : M A := fun s =>
  match body s with
  | (Raise e, s') => if catches e then handler e s' else (Raise e, s')
  | r => r
  end.

(** The next answer of the environment. *)
Definition external (env : Env) : M (option PyExn) := fun s =>
  (Return (env (calls s)), set_calls (S (calls s)) s).

(** One descriptor less. *)
Fixpoint release (q : MessageQueue) (l : list MessageQueue)
  : list MessageQueue :=
  match l with
  | [] => []
  | q' :: l' => if decide (q = q') then l' else q' :: release q l'
  end.

(** ** The collaborators: monitor and message queues *)

Section Collaborators.
Variable env : Env.

(** [origin.protocols.monitor.execute_command(name, params)] *)
Definition execute_command (name : string) (params : gmap string PyVal)
  : M unit :=
  emit (monitor_execute_command name params);;
  raised ← external env;
  match raised with
  | Some e => raise e
  | None => mret tt
  end.

(** [MessageQueue(name, flags=flags, read=read, write=write)] *)
Definition MessageQueue_init (name : string) (flags : OFlag)
  (read write : bool) : M MessageQueue :=
  raised ← external env;
  emit (mq_open name flags read write raised);;
  match raised with
  | Some e => raise e
  | None =>
      let q := {| mq_name := name; mq_flags := flags;
                  mq_read := read; mq_write := write |} in
      modify (fun s => set_descriptors (descriptors s ++ [q]) s);;
      mret q
  end.

Definition MessageQueue_close (q : MessageQueue) : M unit :=
  raised ← external env;
  emit (mq_close q raised);;
  match raised with
  | Some e => raise e
  | None => modify (fun s => set_descriptors (release q (descriptors s)) s)
  end.

Definition MessageQueue_unlink (q : MessageQueue) : M unit :=
  raised ← external env;
  emit (mq_unlink q raised);;
  match raised with
  | Some e => raise e
  | None => mret tt
  end.

Definition MessageQueue_send (q : MessageQueue) (payload : list byte)
  : M unit :=
  raised ← external env;
  emit (mq_send q payload raised);;
  match raised with
  | Some e => raise e
  | None => mret tt
  end.
End Collaborators.

(** ** ARMV7MInterruptProtocol *)

Definition __init__ (origin : Target) (rx_queue_name tx_queue_name : string)
  : Sys :=
  {| _rx_queue_name := rx_queue_name; _tx_queue_name := tx_queue_name;
     _rx_queue := None; _tx_queue := None; _origin := origin;
     _close := false; _closed := false; daemon := false;
     listener := NotStarted; _avatar_queue := [];
     descriptors := []; trace := []; calls := 0%nat; polled := 0 |}.

Section Protocol.
Variable byteorder : ByteOrder.
Variable env : Env.

(** *** The listener thread

    [run] is cut at its one blocking call.  [run_poll] is the loop from
    its head to the [receive]: the thread leaves the loop when [_close] is
    set, and waits in [receive] otherwise.  With no [_rx_queue] the
    attribute access raises inside the [try], the bare [except] swallows
    it and the thread is back at the head of the loop. *)
Definition run_poll (s : Sys) : Sys :=
  if _close s then set_listener Finished (set_closed true s)
  else
    match _rx_queue s with
    | None => set_listener AtLoopHead s
    | Some q =>
        set_listener InReceive
          (set_trace (trace s ++ [mq_receive q poll_timeout_ms]) s)
    end.

(** The statements of the loop body after the [try]. *)
Definition run_forward (request : list byte * Z) : M unit :=
  req_struct ← lift (from_buffer_copy V7MInterruptExitReq.size request.1);
  log DEBUG "Received an InterruptExitRequest for irq %d (%x)"
    [ArgInt (V7MInterruptExitReq.num_irq byteorder req_struct);
     ArgInt (V7MInterruptExitReq.type byteorder req_struct)];;
  s ← get;
  let msg :=
    RemoteInterruptExitMessage (_origin s)
      (V7MInterruptExitReq.id byteorder req_struct)
      (V7MInterruptExitReq.type byteorder req_struct)
      (V7MInterruptExitReq.num_irq byteorder req_struct) in
  modify (set_avatar_queue (_avatar_queue s ++ [msg])).

(** The [receive] the thread waits in ends with [r]: on an exception the
    loop continues; on a message the rest of the body runs, and an
    exception it raises leaves [run], so that the thread dies before
    [_closed.set()]. *)
Definition run_received (r : Received) (s : Sys) : Sys :=
  match listener s with
  | InReceive =>
      let s1 := set_polled (polled s + waited_of r) s in
      match r with
      | receive_raised _ _ => run_poll s1
      | message payload priority _ =>
          match run_forward (payload, priority) s1 with
          | (Return _, s2) => run_poll s2
          | (Raise e, s2) => set_listener (Died e) s2
          | (BlockForever, s2) => s2
          end
      end
  | _ => s
  end.

(** The thread over a sequence of [receive] results. *)
Definition run (inputs : list Received) (s : Sys) : Sys :=
  foldl (fun s r => run_received r s)
    (match listener s with AtLoopHead => run_poll s | _ => s end)
    inputs.

(** [self.daemon = daemonic]: refused once the thread was started. *)
Definition daemon_setter (daemonic : bool) : M unit :=
  s ← get;
  match listener s with
  | NotStarted => modify (set_daemon daemonic)
  | _ => raise RuntimeError
  end.

(** [Thread.start]: a thread is started once. *)
Definition start : M unit :=
  s ← get;
  match listener s with
  | NotStarted => emit thread_start;; modify (set_listener AtLoopHead)
  | _ => raise RuntimeError
  end.

(** *** stop

    [_closed.wait()] has no timeout.  While the caller waits, only the
    listener runs: it is at the head of its loop, or in a [receive] that
    ends with [pending]; it is the only one to set [_closed]. *)
Definition closed_wait (pending : Received) : M unit := fun s =>
  if _closed s then (Return tt, s)
  else
    let s' :=
      match listener s with
      | AtLoopHead => run_poll s
      | InReceive => run_received pending s
      | _ => s
      end in
    if _closed s' then (Return tt, s') else (BlockForever, s').

Definition stop (pending : Received) : M unit :=
  modify (set_close true);;
  closed_wait pending.

(** *** enable_interrupts *)
Definition enable_irq_params (s : Sys) : gmap string PyVal :=
  let rmem_rx_qname := remote_memory_rx_queue_name (_origin s) in
  let rmem_tx_qname := remote_memory_tx_queue_name (_origin s) in
  {[ "irq_rx_queue_name" := PyStr (_tx_queue_name s);
     "irq_tx_queue_name" := PyStr (_rx_queue_name s);
     "rmem_rx_queue_name" := PyStr rmem_tx_qname;
     "rmem_tx_queue_name" := PyStr rmem_rx_qname ]}.

(** The two [try] blocks return [Some False] from their handlers and
    fall through with [None]. *)
Definition enable_interrupts : M bool :=
  s ← get;
  (if isinstance_QemuTarget (_origin s) then
     execute_command env "avatar-armv7m-enable-irq" (enable_irq_params s)
   else
     raise (Exception "V7MInterruptProtocol is not implemented for %s"
              (target_class (_origin s))));;
  returned ←
    try_except
      (q ← MessageQueue_init env (_rx_queue_name s) O_RDONLY true false;
       modify (set_rx_queue (Some q));;
       mret None)
      isinstance_Exception
      (fun e =>
         log ERROR "Unable to create rx_queue: %s" [ArgExn e];;
         mret (Some false));
  match returned with
  | Some r => mret r
  | None =>
      returned ←
        try_except
          (q ← MessageQueue_init env (_tx_queue_name s) O_WRONLY false true;
           modify (set_tx_queue (Some q));;
           mret None)
          isinstance_Exception
          (fun e =>
             log ERROR "Unable to create tx_queue: %s" [ArgExn e];;
             s' ← get;
             match _rx_queue s' with
             | Some q => MessageQueue_close env q
             | None => raise AttributeError
             end;;
             mret (Some false));
      match returned with
      | Some r => mret r
      | None =>
          daemon_setter true;;
          start;;
          log INFO "Enabled Interrupt Forwarding for %s"
            [ArgTarget (_origin s)];;
          mret true
      end
  end.

(** *** inject_interrupt *)
Definition inject_interrupt (interrupt_number : Z) (cpu_number : option Z)
  : M unit :=
  let cpu_number := default 0 cpu_number in
  s ← get;
  if isinstance_QemuTarget (_origin s) then
    log INFO "Injecting interrupt %d" [ArgInt interrupt_number];;
    execute_command env "avatar-armv7m-inject-irq"
      {[ "num_irq" := PyInt interrupt_number;
         "num_cpu" := PyInt cpu_number ]};;
    emit (print "Done")
  else mret tt.

(** *** send_interrupt_exit_response *)
Definition send_interrupt_exit_response (id success : Z) : M bool :=
  let response := V7MInterruptExitResp.new byteorder id success in
  try_except
    (s ← get;
     match _tx_queue s with
     | Some q => MessageQueue_send env q response
     | None => raise AttributeError
     end;;
     log DEBUG "Send RemoteInterruptResponse with id %d" [ArgInt id];;
     mret true)
    isinstance_Exception
    (fun e =>
       log ERROR "Unable to send response: %s" [ArgExn e];;
       mret false).

(** *** shutdown *)
Definition shutdown (pending : Received) : M unit :=
  stop pending;;
  s ← get;
  match _rx_queue s with
  | Some q =>
      try_except
        (MessageQueue_unlink env q;;
         MessageQueue_close env q;;
         modify (set_rx_queue None))
        isinstance_ExistentialError
        (fun _ =>
           log WARNING "Tried to close/unlink non existent rx_queue" [])
  | None => mret tt
  end;;
  s ← get;
  match _tx_queue s with
  | Some q =>
      try_except
        (MessageQueue_unlink env q;;
         MessageQueue_close env q;;
         modify (set_tx_queue None))
        isinstance_ExistentialError
        (fun _ =>
           log WARNING "Tried to close/unlink non existent tx_queue" [])
  | None => mret tt
  end.

Definition __del__ (pending : Received) : M unit := shutdown pending.
End Protocol.

(** ** Reading a trace *)

Definition command_of (e : Effect) : option (string * gmap string PyVal) :=
  match e with
  | monitor_execute_command name params => Some (name, params)
  | _ => None
  end.

(** The monitor commands of a trace, in order. *)
Definition commands (t : list Effect) : list (string * gmap string PyVal) :=
  omap command_of t.

Definition is_channel_effect (e : Effect) : bool :=
  match e with
  | mq_open _ _ _ _ _ | mq_receive _ _ | mq_send _ _ _
  | mq_unlink _ _ | mq_close _ _ => true
  | _ => false
  end.

(** What happened on the message queues, in order. *)
Definition channel_effects (t : list Effect) : list Effect :=
  List.filter is_channel_effect t.

(** ** What the listener forwards *)

(** The request a [receive] result decodes to, if any. *)
Definition decoded (r : Received) : option (list byte) :=
  match r with
  | message payload _ _ =>
      match from_buffer_copy V7MInterruptExitReq.size payload with
      | Return req => Some req
      | _ => None
      end
  | receive_raised _ _ => None
  end.

(** The event that carries the three fields of a request. *)
Definition exit_message (byteorder : ByteOrder) (origin : Target)
  (req : list byte) : Message :=
  RemoteInterruptExitMessage origin
    (V7MInterruptExitReq.id byteorder req)
    (V7MInterruptExitReq.type byteorder req)
    (V7MInterruptExitReq.num_irq byteorder req).

(** A [receive] result whose payload, if there is one, is long enough to
    decode. *)
Definition decodable (r : Received) : Prop :=
  match r with
  | message payload _ _ => (V7MInterruptExitReq.size <= length payload)%nat
  | receive_raised _ _ => True
  end.

(** ** Sample surroundings *)

Definition qemu_target : Target :=
  {| target_class := "<class 'avatar2.targets.qemu_target.QemuTarget'>";
     isinstance_QemuTarget := true;
     remote_memory_rx_queue_name := "/qemu_rmem_rx";
     remote_memory_tx_queue_name := "/qemu_rmem_tx" |}.

Definition gdb_target : Target :=
  {| target_class := "<class 'avatar2.targets.gdb_target.GDBTarget'>";
     isinstance_QemuTarget := false;
     remote_memory_rx_queue_name := "";
     remote_memory_tx_queue_name := "" |}.

(** Every call into the monitor and the queues succeeds. *)
Definition all_succeed : Env := fun _ => None.

(** The third call is refused: in [enable_interrupts], the opening of the
    tx queue. *)
Definition tx_refused : Env := fun k =>
  match k with
  | 2%nat => Some PermissionsError
  | _ => None
  end.

(** The fourth call finds no queue: after [enable_interrupts], the first
    [unlink] of [shutdown]. *)
Definition rx_gone : Env := fun k =>
  match k with
  | 3%nat => Some ExistentialError
  | _ => None
  end.

Definition fresh : Sys := __init__ qemu_target "/irq_rx" "/irq_tx".

(** The instance after a successful [enable_interrupts], its listener
    waiting in [receive]. *)
Definition enabled : Sys := run little [] (enable_interrupts all_succeed fresh).2.

Definition timed_out : Received := receive_raised BusyError poll_timeout_ms.

Definition exit_request (id num_irq type : Z) : Received :=
  message (V7MInterruptExitReq.new little id num_irq type) 0 0.

Definition short_message : Received :=
  message [Byte.x01; Byte.x02; Byte.x03] 0 0.

(** The first call, the monitor command of [enable_interrupts], is
    refused. *)
Definition monitor_refused : Env := fun k =>
  match k with
  | 0%nat => Some OSError
  | _ => None
  end.

(** The second call is refused: in [enable_interrupts], the opening of the
    rx queue. *)
Definition rx_refused : Env := fun k =>
  match k with
  | 1%nat => Some PermissionsError
  | _ => None
  end.

(** The fourth call is denied: after [enable_interrupts], the first
    [unlink] of [shutdown]. *)
Definition rx_unlink_denied : Env := fun k =>
  match k with
  | 3%nat => Some PermissionsError
  | _ => None
  end.


(** The enabled instance once [_close] is set. *)
Definition stopping : Sys := set_close true enabled.

(** ** Proof steps *)

(** Unfolding the monad and the calls into the surroundings. *)
Ltac unfold_methods :=
  unfold try_except, MessageQueue_init, MessageQueue_close,
    MessageQueue_unlink, MessageQueue_send, execute_command, daemon_setter,
    start, external,
    emit, log, modify, get, raise, lift, mbind, M_bind, mret, M_ret.

(** Case analysis on everything a method asks of its surroundings. *)
Ltac case_env env :=
  repeat match goal with
    | |- context [match env ?k with _ => _ end] =>
        destruct (env k) eqn:?; cbn
    | |- context [if isinstance_Exception ?e then _ else _] =>
        destruct (isinstance_Exception e) eqn:?; cbn
    | |- context [if isinstance_ExistentialError ?e then _ else _] =>
        destruct (isinstance_ExistentialError e) eqn:?; cbn
    | |- context [match listener ?s with _ => _ end] =>
        destruct (listener s) eqn:?; cbn
    end.

(** ** Facts about the codec *)

Lemma V7MInterruptExitReq_layout :
  layout 0 V7MInterruptExitReq._fields_
  = [("id", (0%nat, c_uint64)); ("num_irq", (8%nat, c_uint32));
     ("type", (12%nat, c_uint32))]
  /\ sizeof V7MInterruptExitReq._fields_ = V7MInterruptExitReq.size.
Proof. split; reflexivity. Qed.

Lemma V7MInterruptExitResp_layout :
  layout 0 V7MInterruptExitResp._fields_
  = [("id", (0%nat, c_uint64)); ("success", (8%nat, c_uint32))]
  /\ sizeof V7MInterruptExitResp._fields_ = V7MInterruptExitResp.size.
Proof. split; reflexivity. Qed.

Lemma length_int_to_bytes order n v : length (int_to_bytes order n v) = n.
Proof.
  destruct order; simpl.
  - apply length_le_split.
  - rewrite length_rev. apply length_le_split.
Qed.

Lemma int_from_to_bytes order n v :
  int_from_bytes order (int_to_bytes order n v) = v mod 2 ^ (Z.of_nat n * 8).
Proof.
  destruct order; simpl.
  - apply le_combine_split.
  - rewrite rev_involutive. apply le_combine_split.
Qed.

Lemma V7MInterruptExitReq_new_bytes order a b c :
  V7MInterruptExitReq.new order a b c
  = int_to_bytes order 8 a ++ int_to_bytes order 4 b ++ int_to_bytes order 4 c.
Proof.
  unfold V7MInterruptExitReq.new, setfield, V7MInterruptExitReq.size.
  pose proof (length_int_to_bytes order 8 a) as Ha.
  pose proof (length_int_to_bytes order 4 b) as Hb.
  set (A := int_to_bytes order 8 a) in *.
  set (B := int_to_bytes order 4 b) in *.
  set (C := int_to_bytes order 4 c).
  change (take 0 _) with (@nil byte). cbn [app].
  change (drop (0 + 8) (replicate 16 Byte.x00)) with (replicate 8 Byte.x00).
  rewrite (take_app_length' A _ 8) by done.
  rewrite (drop_app_ge A) by lia. rewrite Ha.
  change (drop (8 + 4 - 8) (replicate 8 Byte.x00)) with (replicate 4 Byte.x00).
  rewrite (app_assoc A B).
  rewrite (take_app_length' (A ++ B) _ 12) by (rewrite length_app; lia).
  rewrite (drop_app_ge (A ++ B)) by (rewrite length_app; lia).
  rewrite length_app, Ha, Hb.
  change (drop (12 + 4 - (8 + 4)) (replicate 4 Byte.x00)) with (@nil byte).
  rewrite app_nil_r, <- app_assoc. reflexivity.
Qed.

Lemma length_V7MInterruptExitReq_new order a b c :
  length (V7MInterruptExitReq.new order a b c) = V7MInterruptExitReq.size.
Proof.
  rewrite V7MInterruptExitReq_new_bytes, !length_app, !length_int_to_bytes.
  reflexivity.
Qed.

Lemma V7MInterruptExitReq_fields_new order a b c :
  V7MInterruptExitReq.id order (V7MInterruptExitReq.new order a b c) = a mod 2 ^ 64
  /\ V7MInterruptExitReq.num_irq order (V7MInterruptExitReq.new order a b c) = b mod 2 ^ 32
  /\ V7MInterruptExitReq.type order (V7MInterruptExitReq.new order a b c) = c mod 2 ^ 32.
Proof.
  rewrite V7MInterruptExitReq_new_bytes.
  unfold V7MInterruptExitReq.id, V7MInterruptExitReq.num_irq,
    V7MInterruptExitReq.type, getfield.
  pose proof (length_int_to_bytes order 8 a) as Ha.
  pose proof (length_int_to_bytes order 4 b) as Hb.
  pose proof (length_int_to_bytes order 4 c) as Hc.
  pose proof (int_from_to_bytes order 8 a) as Ea.
  pose proof (int_from_to_bytes order 4 b) as Eb.
  pose proof (int_from_to_bytes order 4 c) as Ec.
  set (A := int_to_bytes order 8 a) in *.
  set (B := int_to_bytes order 4 b) in *.
  set (C := int_to_bytes order 4 c) in *.
  repeat split.
  - change (drop 0 ?l) with l.
    rewrite (take_app_length' A _ 8) by done. exact Ea.
  - rewrite (drop_app_length' A _ 8) by done.
    rewrite (take_app_length' B _ 4) by done. exact Eb.
  - rewrite app_assoc.
    rewrite (drop_app_length' (A ++ B) _ 12) by (rewrite length_app; lia).
    rewrite take_ge by lia. exact Ec.
Qed.

(** C4.  For every triple [(id, irqNumber, returnType)] of a 64-bit and two
    32-bit unsigned integers, the request built from it is sixteen bytes
    long, and these bytes decode, through [from_buffer_copy] and the three
    field reads, to the same triple, in either host byte order. *)
Theorem exit_request_roundtrip (order : ByteOrder) (id num_irq type : Z) :
  0 <= id < 2 ^ 64 ->
  0 <= num_irq < 2 ^ 32 ->
  0 <= type < 2 ^ 32 ->
  length (V7MInterruptExitReq.new order id num_irq type) = 16%nat
  /\ exists s,
    from_buffer_copy V7MInterruptExitReq.size
      (V7MInterruptExitReq.new order id num_irq type) = Return s
    /\ V7MInterruptExitReq.id order s = id
    /\ V7MInterruptExitReq.num_irq order s = num_irq
    /\ V7MInterruptExitReq.type order s = type.
Proof.
  intros Hid Hirq Hty.
  pose proof (length_V7MInterruptExitReq_new order id num_irq type) as Hlen.
  split; [exact Hlen|].
  exists (V7MInterruptExitReq.new order id num_irq type).
  pose proof (V7MInterruptExitReq_fields_new order id num_irq type)
    as (E1 & E2 & E3).
  split.
  - unfold from_buffer_copy. rewrite Hlen, Nat.ltb_irrefl.
    rewrite take_ge by lia. reflexivity.
  - rewrite E1, E2, E3.
    rewrite !Z.mod_small by lia. done.
Qed.

Lemma exit_request_roundtrip_witness :
  length (V7MInterruptExitReq.new little 1 5 4294967289) = 16%nat
  /\ exists s,
    from_buffer_copy V7MInterruptExitReq.size
      (V7MInterruptExitReq.new little 1 5 4294967289) = Return s
    /\ V7MInterruptExitReq.id little s = 1
    /\ V7MInterruptExitReq.num_irq little s = 5
    /\ V7MInterruptExitReq.type little s = 4294967289.
Proof. apply (exit_request_roundtrip little 1 5 4294967289); lia. Defined.

(** ** Facts about the methods *)

Lemma commands_snoc t e :
  commands (t ++ [e])
  = commands t ++ match command_of e with Some c => [c] | None => [] end.
Proof.
  unfold commands. rewrite omap_app. simpl.
  destruct (command_of e); reflexivity.
Qed.

Lemma channel_effects_snoc t e :
  channel_effects (t ++ [e])
  = channel_effects t ++ (if is_channel_effect e then [e] else []).
Proof.
  unfold channel_effects. rewrite List.filter_app. simpl.
  destruct (is_channel_effect e); reflexivity.
Qed.

Lemma release_snoc q l : release q (l ++ [q]) ≡ₚ l.
Proof.
  induction l as [|a l IH]; simpl.
  - rewrite decide_True by done. done.
  - destruct (decide (q = a)) as [->|].
    + symmetry. apply Permutation_cons_append.
    + by rewrite IH.
Qed.

(** C5.  On a target that is not a [QemuTarget], [enable_interrupts] raises
    the "not implemented" exception and leaves everything as it was: no
    monitor command, no queue opened, no thread started. *)
Theorem enable_interrupts_unsupported_target (env : Env) (s : Sys) :
  isinstance_QemuTarget (_origin s) = false ->
  enable_interrupts env s
  = (Raise (Exception "V7MInterruptProtocol is not implemented for %s"
              (target_class (_origin s))), s).
Proof.
  intros H. unfold enable_interrupts. unfold_methods. cbn.
  rewrite H. reflexivity.
Qed.

Lemma enable_interrupts_unsupported_target_witness :
  enable_interrupts all_succeed (__init__ gdb_target "/irq_rx" "/irq_tx")
  = (Raise (Exception "V7MInterruptProtocol is not implemented for %s"
              "<class 'avatar2.targets.gdb_target.GDBTarget'>"),
     __init__ gdb_target "/irq_rx" "/irq_tx").
Proof.
  apply (enable_interrupts_unsupported_target all_succeed
           (__init__ gdb_target "/irq_rx" "/irq_tx")).
  reflexivity.
Defined.

(** C10.  On a target that is not a [QemuTarget], [inject_interrupt]
    returns [None] at once: nothing is raised and nothing changes, so no
    monitor command is issued; [enable_interrupts], on the same instance,
    raises. *)
Theorem inject_interrupt_unsupported_target (env : Env) (s : Sys)
  (interrupt_number : Z) (cpu_number : option Z) :
  isinstance_QemuTarget (_origin s) = false ->
  inject_interrupt env interrupt_number cpu_number s = (Return tt, s)
  /\ exists e, (enable_interrupts env s).1 = Raise e.
Proof.
  intros H. split.
  - unfold inject_interrupt. unfold_methods. cbn. rewrite H. reflexivity.
  - unfold enable_interrupts. unfold_methods. cbn. rewrite H.
    eexists. reflexivity.
Qed.

Lemma inject_interrupt_unsupported_target_witness :
  inject_interrupt all_succeed 7 (Some 1)
    (__init__ gdb_target "/irq_rx" "/irq_tx")
  = (Return tt, __init__ gdb_target "/irq_rx" "/irq_tx")
  /\ exists e,
      (enable_interrupts all_succeed
         (__init__ gdb_target "/irq_rx" "/irq_tx")).1 = Raise e.
Proof.
  apply (inject_interrupt_unsupported_target all_succeed
           (__init__ gdb_target "/irq_rx" "/irq_tx") 7 (Some 1)).
  reflexivity.
Defined.

(** C8.  On a [QemuTarget], [inject_interrupt] adds exactly one monitor
    command, [avatar-armv7m-inject-irq], whose parameters are [num_irq], the
    interrupt number, and [num_cpu], the cpu number or 0 when none is given;
    it does nothing on the message queues, whatever the monitor answers. *)
Theorem inject_interrupt_command (env : Env) (s : Sys)
  (interrupt_number : Z) (cpu_number : option Z) :
  isinstance_QemuTarget (_origin s) = true ->
  let s' := (inject_interrupt env interrupt_number cpu_number s).2 in
  (exists params : gmap string PyVal,
      commands (trace s')
      = commands (trace s) ++ [("avatar-armv7m-inject-irq"%string, params)]
      /\ params !! "num_irq" = Some (PyInt interrupt_number)
      /\ params !! "num_cpu" = Some (PyInt (default 0 cpu_number))
      /\ dom params = {[ "num_irq"; "num_cpu" ]})
  /\ channel_effects (trace s') = channel_effects (trace s)
  /\ descriptors s' = descriptors s.
Proof.
  intros H s'. subst s'.
  unfold inject_interrupt. unfold_methods. cbn. rewrite H. cbn.
  split; [eexists; split; [|split; [|split]] |].
  - case_env env; rewrite ?commands_snoc; cbn;
      rewrite ?app_nil_r; reflexivity.
  - reflexivity.
  - reflexivity.
  - set_solver.
  - case_env env; rewrite ?channel_effects_snoc; cbn;
      rewrite ?app_nil_r; done.
Qed.

Lemma inject_interrupt_command_witness :
  let s' := (inject_interrupt all_succeed 7 (Some 1) fresh).2 in
  (exists params : gmap string PyVal,
      commands (trace s')
      = commands (trace fresh) ++ [("avatar-armv7m-inject-irq"%string, params)]
      /\ params !! "num_irq" = Some (PyInt 7)
      /\ params !! "num_cpu" = Some (PyInt (default 0 (Some 1)))
      /\ dom params = {[ "num_irq"; "num_cpu" ]})
  /\ channel_effects (trace s') = channel_effects (trace fresh)
  /\ descriptors s' = descriptors fresh.
Proof.
  apply (inject_interrupt_command all_succeed fresh 7 (Some 1)).
  reflexivity.
Defined.

(** C9.  On a [QemuTarget], [enable_interrupts] adds exactly one monitor
    command, [avatar-armv7m-enable-irq], whatever happens afterwards.  Its
    four parameters swap the directions: [irq_rx_queue_name] is this side's
    tx queue name, [irq_tx_queue_name] its rx queue name, and
    [rmem_rx_queue_name] and [rmem_tx_queue_name] are the tx and the rx queue
    name of the remote-memory protocol. *)
Theorem enable_interrupts_command (env : Env) (s : Sys) :
  isinstance_QemuTarget (_origin s) = true ->
  exists params : gmap string PyVal,
    commands (trace (enable_interrupts env s).2)
    = commands (trace s) ++ [("avatar-armv7m-enable-irq"%string, params)]
    /\ params !! "irq_rx_queue_name" = Some (PyStr (_tx_queue_name s))
    /\ params !! "irq_tx_queue_name" = Some (PyStr (_rx_queue_name s))
    /\ params !! "rmem_rx_queue_name"
       = Some (PyStr (remote_memory_tx_queue_name (_origin s)))
    /\ params !! "rmem_tx_queue_name"
       = Some (PyStr (remote_memory_rx_queue_name (_origin s)))
    /\ dom params
       = {[ "irq_rx_queue_name"; "irq_tx_queue_name";
            "rmem_rx_queue_name"; "rmem_tx_queue_name" ]}.
Proof.
  intros H. exists (enable_irq_params s).
  split; [|split; [|split; [|split; [|split]]]].
  - unfold enable_interrupts. unfold_methods.
    generalize (enable_irq_params s) as params. intros params.
    cbn. rewrite H. cbn.
    case_env env; rewrite ?commands_snoc; cbn; rewrite ?app_nil_r;
      reflexivity.
  - reflexivity.
  - reflexivity.
  - reflexivity.
  - reflexivity.
  - unfold enable_irq_params. set_solver.
Qed.

Lemma enable_interrupts_command_witness :
  exists params : gmap string PyVal,
    commands (trace (enable_interrupts tx_refused fresh).2)
    = commands (trace fresh) ++ [("avatar-armv7m-enable-irq"%string, params)]
    /\ params !! "irq_rx_queue_name" = Some (PyStr "/irq_tx")
    /\ params !! "irq_tx_queue_name" = Some (PyStr "/irq_rx")
    /\ params !! "rmem_rx_queue_name" = Some (PyStr "/qemu_rmem_tx")
    /\ params !! "rmem_tx_queue_name" = Some (PyStr "/qemu_rmem_rx")
    /\ dom params
       = {[ "irq_rx_queue_name"; "irq_tx_queue_name";
            "rmem_rx_queue_name"; "rmem_tx_queue_name" ]}.
Proof.
  apply (enable_interrupts_command tx_refused fresh).
  reflexivity.
Defined.

(** C6.  On a [QemuTarget] whose monitor command succeeds, when the rx
    queue opens, the opening of the tx queue raises an [Exception] and the
    rx queue can be closed, [enable_interrupts] returns [False]: the queue
    traffic of the call is the two openings followed by the close of the rx
    queue, the process holds the descriptors it held before, and no thread
    was started. *)
Theorem enable_interrupts_tx_failure (env : Env) (s : Sys) (e : PyExn) :
  isinstance_QemuTarget (_origin s) = true ->
  env (calls s) = None ->
  env (S (calls s)) = None ->
  env (S (S (calls s))) = Some e ->
  isinstance_Exception e = true ->
  env (S (S (S (calls s)))) = None ->
  let rx := {| mq_name := _rx_queue_name s; mq_flags := O_RDONLY;
               mq_read := true; mq_write := false |} in
  let r := enable_interrupts env s in
  r.1 = Return false
  /\ channel_effects (trace r.2)
     = channel_effects (trace s)
       ++ [mq_open (_rx_queue_name s) O_RDONLY true false None;
           mq_open (_tx_queue_name s) O_WRONLY false true (Some e);
           mq_close rx None]
  /\ descriptors r.2 ≡ₚ descriptors s
  /\ listener r.2 = listener s.
Proof.
  intros H H0 H1 H2 He H3 rx r. subst r.
  unfold enable_interrupts. unfold_methods.
  generalize (enable_irq_params s) as params. intros params.
  cbn. rewrite H. cbn. rewrite H0. cbn. rewrite H1. cbn. rewrite H2. cbn.
  rewrite He. cbn. rewrite H3. cbn.
  repeat split.
  - rewrite !channel_effects_snoc. cbn.
    rewrite !app_nil_r, <- !app_assoc. reflexivity.
  - apply release_snoc.
Qed.

Lemma enable_interrupts_tx_failure_witness :
  let rx := {| mq_name := "/irq_rx"; mq_flags := O_RDONLY;
               mq_read := true; mq_write := false |} in
  let r := enable_interrupts tx_refused fresh in
  r.1 = Return false
  /\ channel_effects (trace r.2)
     = channel_effects (trace fresh)
       ++ [mq_open "/irq_rx" O_RDONLY true false None;
           mq_open "/irq_tx" O_WRONLY false true (Some PermissionsError);
           mq_close rx None]
  /\ descriptors r.2 ≡ₚ descriptors fresh
  /\ listener r.2 = listener fresh.
Proof.
  apply (enable_interrupts_tx_failure tx_refused fresh PermissionsError);
    reflexivity.
Defined.

(** The first [try] block: when the opening of the rx queue raises an
    [Exception], [enable_interrupts] returns [False] with no descriptor
    taken and no thread started. *)
Lemma enable_interrupts_rx_failure env s e :
  isinstance_QemuTarget (_origin s) = true ->
  env (calls s) = None ->
  env (S (calls s)) = Some e ->
  isinstance_Exception e = true ->
  let r := enable_interrupts env s in
  r.1 = Return false
  /\ descriptors r.2 = descriptors s
  /\ listener r.2 = listener s
  /\ _rx_queue r.2 = _rx_queue s.
Proof.
  intros H H0 H1 He r. subst r.
  unfold enable_interrupts. unfold_methods.
  generalize (enable_irq_params s) as params. intros params.
  cbn. rewrite H. cbn. rewrite H0. cbn. rewrite H1. cbn. rewrite He. cbn.
  repeat split.
Qed.

(** ** Facts about the listener *)

Lemma from_buffer_copy_long size source :
  (size <= length source)%nat ->
  from_buffer_copy size source = Return (take size source).
Proof.
  intros H. unfold from_buffer_copy.
  destruct (Nat.ltb_spec (length source) size); [lia | reflexivity].
Qed.

Lemma from_buffer_copy_short size source :
  (length source < size)%nat ->
  from_buffer_copy size source = Raise ValueError.
Proof.
  intros H. unfold from_buffer_copy.
  destruct (Nat.ltb_spec (length source) size); [reflexivity | lia].
Qed.

Lemma from_buffer_copy_raises_iff size source :
  from_buffer_copy size source = Raise ValueError
  <-> (length source < size)%nat.
Proof.
  split; [|apply from_buffer_copy_short].
  unfold from_buffer_copy.
  destruct (Nat.ltb_spec (length source) size); [done | discriminate].
Qed.

(** One decodable [receive] result, seen by a listener that waits in
    [receive] and was not told to stop: the listener waits again, and the
    avatar queue has grown by the event of the request, if there was one. *)
Lemma run_received_decodable order r s :
  listener s = InReceive ->
  _close s = false ->
  is_Some (_rx_queue s) ->
  decodable r ->
  let s' := run_received order r s in
  listener s' = InReceive
  /\ _close s' = false
  /\ _rx_queue s' = _rx_queue s
  /\ _origin s' = _origin s
  /\ _closed s' = _closed s
  /\ _avatar_queue s'
     = _avatar_queue s
       ++ map (exit_message order (_origin s)) (option_list (decoded r)).
Proof.
  intros Hl Hc [q Hq] Hr. unfold run_received. rewrite Hl.
  destruct r as [payload priority waited | e waited]; simpl in Hr |- *.
  - unfold run_forward. unfold_methods. cbn.
    rewrite (from_buffer_copy_long _ _ Hr). cbn.
    unfold run_poll. cbn. rewrite Hc, Hq. cbn.
    repeat split; done.
  - unfold run_poll. cbn. rewrite Hc, Hq. cbn.
    rewrite app_nil_r. repeat split; done.
Qed.

Lemma foldl_run_received_decodable order inputs s :
  listener s = InReceive ->
  _close s = false ->
  is_Some (_rx_queue s) ->
  Forall decodable inputs ->
  let s' := foldl (fun s r => run_received order r s) s inputs in
  listener s' = InReceive
  /\ _avatar_queue s'
     = _avatar_queue s
       ++ map (exit_message order (_origin s)) (omap decoded inputs).
Proof.
  revert s. induction inputs as [|r inputs IH]; intros s Hl Hc Hq Hin; simpl.
  - rewrite app_nil_r. done.
  - apply Forall_cons in Hin as [Hr Hin].
    destruct (run_received_decodable order r s Hl Hc Hq Hr)
      as (Hl' & Hc' & Hq' & Ho' & _ & Ha').
    destruct (IH (run_received order r s)) as [Hl'' Ha'']; auto.
    { rewrite Hq'. done. }
    split; [done|].
    rewrite Ha'', Ha', Ho', <- app_assoc. f_equal.
    destruct (decoded r); reflexivity.
Qed.

Lemma run_dead order inputs s e :
  listener s = Died e -> run order inputs s = s.
Proof.
  intros H. unfold run. rewrite H.
  induction inputs as [|r inputs IH]; simpl; [done|].
  unfold run_received at 2. rewrite H. exact IH.
Qed.

(** C7.  A listener that runs and was not told to stop, fed with [receive]
    results that all decode: the avatar queue grows by exactly one event
    per decoded request, each with the [id], [type] and [num_irq] of its
    request, in the order in which the requests were received. *)
Theorem run_forwards_in_order (order : ByteOrder) (inputs : list Received)
  (s : Sys) :
  listener s = AtLoopHead \/ listener s = InReceive ->
  _close s = false ->
  is_Some (_rx_queue s) ->
  Forall decodable inputs ->
  _avatar_queue (run order inputs s)
  = _avatar_queue s ++ map (exit_message order (_origin s)) (omap decoded inputs).
Proof.
  intros Hl Hc Hq Hin. unfold run.
  destruct Hl as [Hl | Hl]; rewrite Hl.
  - destruct Hq as [q Hq].
    assert (run_poll s
            = set_listener InReceive
                (set_trace (trace s ++ [mq_receive q poll_timeout_ms]) s))
      as -> by (unfold run_poll; rewrite Hc, Hq; done).
    refine (proj2 (foldl_run_received_decodable order inputs _ _ _ _ Hin));
      cbn; eauto.
  - exact (proj2 (foldl_run_received_decodable order inputs s Hl Hc Hq Hin)).
Qed.

Lemma run_forwards_in_order_witness :
  _avatar_queue
    (run little [exit_request 1 5 4294967289; timed_out;
                 exit_request 2 6 4294967289; exit_request 3 7 4294967281]
       enabled)
  = _avatar_queue enabled
    ++ map (exit_message little (_origin enabled))
         (omap decoded [exit_request 1 5 4294967289; timed_out;
                        exit_request 2 6 4294967289;
                        exit_request 3 7 4294967281]).
Proof.
  apply (run_forwards_in_order little
           [exit_request 1 5 4294967289; timed_out;
            exit_request 2 6 4294967289; exit_request 3 7 4294967281]
           enabled).
  - right. reflexivity.
  - reflexivity.
  - eexists. reflexivity.
  - repeat constructor; vm_compute; lia.
Defined.

(** The scenario of the specification: three requests with ids 1, 2, 3 for
    the interrupts 5, 6, 7 give three events, in that order. *)
Example run_three_requests :
  _avatar_queue
    (run little [exit_request 1 5 4294967289; exit_request 2 6 4294967289;
                 exit_request 3 7 4294967289] enabled)
  = [RemoteInterruptExitMessage qemu_target 1 4294967289 5;
     RemoteInterruptExitMessage qemu_target 2 4294967289 6;
     RemoteInterruptExitMessage qemu_target 3 4294967289 7].
Proof. vm_compute. reflexivity. Qed.

(** C1, as the code has it.  A payload shorter than the sixteen bytes of
    the record makes [from_buffer_copy] raise [ValueError]; nothing is put
    on the avatar queue for it and nothing is logged; the exception leaves
    [run], so the listener is dead: it neither sets [_closed] nor looks at
    later messages. *)
Theorem run_short_payload_ends_listener (order : ByteOrder) (s : Sys)
  (payload : list byte) (priority waited : Z) :
  listener s = InReceive ->
  (length payload < V7MInterruptExitReq.size)%nat ->
  from_buffer_copy V7MInterruptExitReq.size payload = Raise ValueError
  /\ let s' := run_received order (message payload priority waited) s in
     listener s' = Died ValueError
     /\ _avatar_queue s' = _avatar_queue s
     /\ trace s' = trace s
     /\ _closed s' = _closed s
     /\ forall more, run order more s' = s'.
Proof.
  intros Hl Hlen.
  pose proof (from_buffer_copy_short _ _ Hlen) as Hraise.
  split; [exact Hraise|].
  assert (run_received order (message payload priority waited) s
          = set_listener (Died ValueError)
              (set_polled (polled s + waited) s)) as ->.
  { unfold run_received. rewrite Hl. unfold run_forward. unfold_methods.
    cbn. rewrite Hraise. reflexivity. }
  cbn. repeat split.
  intros more. apply (run_dead order more _ ValueError). reflexivity.
Qed.

Lemma run_short_payload_ends_listener_witness :
  from_buffer_copy V7MInterruptExitReq.size [Byte.x01; Byte.x02; Byte.x03]
  = Raise ValueError
  /\ let s' := run_received little
                 (message [Byte.x01; Byte.x02; Byte.x03] 0 0) enabled in
     listener s' = Died ValueError
     /\ _avatar_queue s' = _avatar_queue enabled
     /\ trace s' = trace enabled
     /\ _closed s' = _closed enabled
     /\ forall more, run little more s' = s'.
Proof.
  apply (run_short_payload_ends_listener little enabled
           [Byte.x01; Byte.x02; Byte.x03] 0 0).
  - reflexivity.
  - vm_compute. lia.
Defined.

(** C1, as the specification has it, fails: after a message of three bytes
    the listener is dead, [_closed] is not set, and the well-formed request
    that follows is never forwarded. *)
Lemma run_short_payload_counterexample :
  let s := run little [short_message; exit_request 3 7 4294967289] enabled in
  listener s = Died ValueError
  /\ _closed s = false
  /\ _avatar_queue s = [].
Proof. vm_compute. repeat split. Qed.

(** ** Facts about stop and shutdown *)

(** [stop] on a listener that runs: it returns once the listener has set
    [_closed], after no [receive] at all or after the pending one. *)
Lemma stop_running order pending s :
  listener s = AtLoopHead \/ listener s = InReceive ->
  decodable pending ->
  exists s1,
    stop order pending s = (Return tt, s1)
    /\ _closed s1 = true
    /\ (polled s1 = polled s \/ polled s1 = polled s + waited_of pending).
Proof.
  intros Hl Hp. unfold stop, closed_wait. unfold_methods. cbn.
  destruct (_closed s) eqn:Hclosed.
  { eexists. split; [reflexivity|]. cbn. auto. }
  destruct Hl as [Hl | Hl]; rewrite Hl.
  - unfold run_poll. cbn. eexists. split; [reflexivity|]. cbn. auto.
  - unfold run_received. cbn. rewrite Hl.
    destruct pending as [payload priority waited | e waited];
      simpl in Hp |- *.
    + unfold run_forward. unfold_methods. cbn.
      rewrite (from_buffer_copy_long _ _ Hp). cbn.
      unfold run_poll. cbn. eexists. split; [reflexivity|]. cbn. auto.
    + unfold run_poll. cbn. eexists. split; [reflexivity|]. cbn. auto.
Qed.

(** Once [stop] has returned, the rest of [shutdown] does not wait: it
    returns, or it raises what [unlink] or [close] raised when that is not
    an [ExistentialError]. *)
Lemma shutdown_after_stop order env pending s :
  (stop order pending s).1 = Return tt ->
  let r := shutdown order env pending s in
  (r.1 = Return tt
   \/ exists e, r.1 = Raise e /\ isinstance_ExistentialError e = false)
  /\ _closed r.2 = _closed (stop order pending s).2
  /\ polled r.2 = polled (stop order pending s).2.
Proof.
  intros Hstop r. subst r.
  destruct (stop order pending s) as [[[]|e|] s1] eqn:Hst;
    simpl in Hstop; try discriminate.
  unfold shutdown. unfold mbind, M_bind. rewrite Hst.
  unfold_methods. cbn.
  destruct (_rx_queue s1) as [rxq|]; cbn; case_env env;
    try (split; [right; eexists; split; [reflexivity|assumption]|done]);
    destruct (_tx_queue s1) as [txq|]; cbn; case_env env;
    try (split; [right; eexists; split; [reflexivity|assumption]|done]);
    (split; [left; reflexivity|done]).
Qed.

(** C3, as the code has it.  On an instance whose listener runs, when the
    pending [receive] ends within the timeout and not with a payload that
    is too short to decode, [shutdown] does not block: the listener sets
    [_closed] after at most that one [receive], so that the time the
    listener spends waiting during the call is at most one polling interval,
    and so at most two.  A pending [receive] that times out is the case in
    which no message ever arrives. *)
Theorem shutdown_within_poll_interval (order : ByteOrder) (env : Env)
  (pending : Received) (s : Sys) :
  listener s = AtLoopHead \/ listener s = InReceive ->
  decodable pending ->
  waited_of pending <= poll_timeout_ms ->
  let r := shutdown order env pending s in
  (r.1 = Return tt
   \/ exists e, r.1 = Raise e /\ isinstance_ExistentialError e = false)
  /\ _closed r.2 = true
  /\ polled r.2 - polled s <= poll_timeout_ms
  /\ polled r.2 - polled s <= 2 * poll_timeout_ms.
Proof.
  intros Hl Hp Hw r. subst r.
  destruct (stop_running order pending s Hl Hp) as (s1 & Hs1 & Hc1 & Hp1).
  destruct (shutdown_after_stop order env pending s) as (Hout & Hc & Hpo).
  { rewrite Hs1. reflexivity. }
  rewrite Hs1 in Hc, Hpo. simpl in Hc, Hpo.
  split; [exact Hout|]. split; [congruence|].
  rewrite Hpo. unfold poll_timeout_ms in *. lia.
Qed.

Lemma shutdown_within_poll_interval_witness :
  let r := shutdown little all_succeed timed_out enabled in
  (r.1 = Return tt
   \/ exists e, r.1 = Raise e /\ isinstance_ExistentialError e = false)
  /\ _closed r.2 = true
  /\ polled r.2 - polled enabled <= poll_timeout_ms
  /\ polled r.2 - polled enabled <= 2 * poll_timeout_ms.
Proof.
  apply (shutdown_within_poll_interval little all_succeed timed_out enabled).
  - right. reflexivity.
  - exact I.
  - vm_compute. discriminate.
Defined.

(** C3, as the specification has it, fails: the listener runs and waits in
    [receive]; [shutdown] is called; the [receive] ends with a message of
    three bytes.  The listener dies without setting [_closed], and
    [shutdown] waits for ever. *)
Lemma shutdown_short_payload_counterexample :
  listener enabled = InReceive
  /\ (shutdown little all_succeed short_message enabled).1 = BlockForever.
Proof. vm_compute. split; reflexivity. Qed.

(** C2.  [shutdown] on an instance whose thread was never started does not
    return: [stop] sets [_close] and waits for [_closed], which only [run]
    sets.  The call gets no further than that: the teardown and its guards
    are not reached. *)
Theorem shutdown_before_enable_blocks (order : ByteOrder) (env : Env)
  (pending : Received) (origin : Target) (rx_queue_name tx_queue_name : string) :
  shutdown order env pending (__init__ origin rx_queue_name tx_queue_name)
  = (BlockForever, set_close true (__init__ origin rx_queue_name tx_queue_name)).
Proof.
  unfold shutdown, stop, closed_wait. unfold_methods.
  reflexivity.
Qed.

(** The same in any state in which no listener can set [_closed]: before
    [start], and after the listener has died. *)
Lemma shutdown_without_listener_blocks order env pending s :
  _closed s = false ->
  listener s = NotStarted \/ (exists e, listener s = Died e) ->
  (shutdown order env pending s).1 = BlockForever.
Proof.
  intros Hc Hl. unfold shutdown, stop, closed_wait. unfold_methods. cbn.
  rewrite Hc. destruct Hl as [Hl | [e Hl]]; rewrite Hl; cbn;
    rewrite Hc; reflexivity.
Qed.

(** So does [enable_interrupts] followed by [shutdown] when a queue could
    not be opened. *)
Example shutdown_after_failed_enable_blocks :
  (enable_interrupts tx_refused fresh).1 = Return false
  /\ (shutdown little all_succeed timed_out
        (enable_interrupts tx_refused fresh).2).1 = BlockForever.
Proof. vm_compute. split; reflexivity. Qed.

(** A second [shutdown], after one that released both queues, only sets
    [_close] again: it calls nothing and raises nothing. *)
Lemma shutdown_again order env pending s :
  _closed s = true ->
  _rx_queue s = None ->
  _tx_queue s = None ->
  shutdown order env pending s = (Return tt, set_close true s).
Proof.
  intros Hc Hrx Htx. unfold shutdown, stop, closed_wait. unfold_methods.
  cbn. rewrite Hc. cbn. rewrite Hrx. cbn. rewrite Htx. reflexivity.
Qed.

Example shutdown_twice :
  let once := shutdown little all_succeed timed_out enabled in
  let twice := shutdown little all_succeed timed_out once.2 in
  once.1 = Return tt
  /\ twice.1 = Return tt
  /\ descriptors twice.2 = []
  /\ trace twice.2 = trace once.2.
Proof. vm_compute. repeat split. Qed.

(** When [unlink] finds no queue, [close] is skipped: the descriptor stays
    open and the attribute stays set, also after a second [shutdown]. *)
Example shutdown_unlink_missing :
  let once := shutdown little rx_gone timed_out
                (run little [] (enable_interrupts rx_gone fresh).2) in
  once.1 = Return tt
  /\ descriptors once.2
     = [{| mq_name := "/irq_rx"; mq_flags := O_RDONLY;
           mq_read := true; mq_write := false |}]
  /\ is_Some (_rx_queue once.2).
Proof. vm_compute. repeat split. eexists. reflexivity. Qed.

(** ** Further facts about the codec *)

Lemma int_to_bytes_mod order n v :
  int_to_bytes order n v = int_to_bytes order n (v mod 2 ^ (Z.of_nat n * 8)).
Proof.
  destruct order; simpl; [|f_equal]; apply le_split_mod.
Qed.

Lemma V7MInterruptExitResp_new_bytes order a b :
  V7MInterruptExitResp.new order a b
  = int_to_bytes order 8 a ++ int_to_bytes order 4 b ++ replicate 4 Byte.x00.
Proof.
  unfold V7MInterruptExitResp.new, setfield, V7MInterruptExitResp.size.
  pose proof (length_int_to_bytes order 8 a) as Ha.
  set (A := int_to_bytes order 8 a) in *.
  set (B := int_to_bytes order 4 b).
  change (take 0 _) with (@nil byte). cbn [app].
  change (drop (0 + 8) (replicate 16 Byte.x00)) with (replicate 8 Byte.x00).
  rewrite (take_app_length' A _ 8) by done.
  rewrite (drop_app_ge A) by lia. rewrite Ha.
  reflexivity.
Qed.

Lemma V7MInterruptExitResp_fields_new order a b :
  length (V7MInterruptExitResp.new order a b) = 16%nat
  /\ drop 12 (V7MInterruptExitResp.new order a b) = replicate 4 Byte.x00
  /\ V7MInterruptExitResp.id order (V7MInterruptExitResp.new order a b)
     = a mod 2 ^ 64
  /\ V7MInterruptExitResp.success order (V7MInterruptExitResp.new order a b)
     = b mod 2 ^ 32.
Proof.
  rewrite V7MInterruptExitResp_new_bytes.
  pose proof (length_int_to_bytes order 8 a) as Ha.
  pose proof (length_int_to_bytes order 4 b) as Hb.
  pose proof (int_from_to_bytes order 8 a) as Ea.
  pose proof (int_from_to_bytes order 4 b) as Eb.
  set (A := int_to_bytes order 8 a) in *.
  set (B := int_to_bytes order 4 b) in *.
  split; [|split; [|split]].
  - rewrite !length_app, Ha, Hb. reflexivity.
  - rewrite app_assoc.
    rewrite (drop_app_length' (A ++ B) _ 12) by (rewrite length_app; lia).
    reflexivity.
  - unfold V7MInterruptExitResp.id, getfield. change (drop 0 ?l) with l.
    rewrite (take_app_length' A _ 8) by done. exact Ea.
  - unfold V7MInterruptExitResp.success, getfield.
    rewrite (drop_app_length' A _ 8) by done.
    rewrite (take_app_length' B _ 4) by done. exact Eb.
Qed.

(** X1.  The response record built from a 64-bit [id] and a 32-bit
    [success] is sixteen bytes long, the last four of them zero padding;
    it decodes to itself, and its two fields read back as [id] and
    [success], in either host byte order. *)
Theorem exit_response_roundtrip (order : ByteOrder) (id success : Z) :
  0 <= id < 2 ^ 64 ->
  0 <= success < 2 ^ 32 ->
  let response := V7MInterruptExitResp.new order id success in
  length response = 16%nat
  /\ drop 12 response = replicate 4 Byte.x00
  /\ from_buffer_copy V7MInterruptExitResp.size response = Return response
  /\ V7MInterruptExitResp.id order response = id
  /\ V7MInterruptExitResp.success order response = success.
Proof.
  intros Hid Hs response. subst response.
  destruct (V7MInterruptExitResp_fields_new order id success)
    as (Hlen & Hpad & E1 & E2).
  split; [exact Hlen|]. split; [exact Hpad|]. split; [|split].
  - rewrite from_buffer_copy_long by (unfold V7MInterruptExitResp.size; lia).
    rewrite take_ge by (unfold V7MInterruptExitResp.size; lia). reflexivity.
  - rewrite E1. apply Z.mod_small. lia.
  - rewrite E2. apply Z.mod_small. lia.
Qed.

Lemma exit_response_roundtrip_witness :
  let response := V7MInterruptExitResp.new big 18446744073709551615 1 in
  length response = 16%nat
  /\ drop 12 response = replicate 4 Byte.x00
  /\ from_buffer_copy V7MInterruptExitResp.size response = Return response
  /\ V7MInterruptExitResp.id big response = 18446744073709551615
  /\ V7MInterruptExitResp.success big response = 1.
Proof. apply (exit_response_roundtrip big 18446744073709551615 1); lia. Defined.

(** X2.  The fields of a request do not check their range: any integers
    are stored modulo [2 ^ 64], [2 ^ 32] and [2 ^ 32], so that a triple and
    its reduction give the same sixteen bytes. *)
Theorem exit_request_fields_wrap (order : ByteOrder) (id num_irq type : Z) :
  V7MInterruptExitReq.new order id num_irq type
  = V7MInterruptExitReq.new order (id mod 2 ^ 64) (num_irq mod 2 ^ 32)
      (type mod 2 ^ 32)
  /\ V7MInterruptExitReq.id order (V7MInterruptExitReq.new order id num_irq type)
     = id mod 2 ^ 64
  /\ V7MInterruptExitReq.num_irq order
       (V7MInterruptExitReq.new order id num_irq type) = num_irq mod 2 ^ 32
  /\ V7MInterruptExitReq.type order
       (V7MInterruptExitReq.new order id num_irq type) = type mod 2 ^ 32.
Proof.
  split; [|apply V7MInterruptExitReq_fields_new].
  rewrite !V7MInterruptExitReq_new_bytes.
  rewrite (int_to_bytes_mod order 8 id), (int_to_bytes_mod order 4 num_irq),
    (int_to_bytes_mod order 4 type).
  reflexivity.
Qed.

(** ** Further facts about the listener *)

(** What [run_poll] leaves alone. *)
Lemma run_poll_frame s :
  let s' := run_poll s in
  _avatar_queue s' = _avatar_queue s
  /\ _origin s' = _origin s
  /\ _close s' = _close s
  /\ descriptors s' = descriptors s
  /\ _rx_queue s' = _rx_queue s
  /\ _tx_queue s' = _tx_queue s
  /\ calls s' = calls s
  /\ daemon s' = daemon s
  /\ commands (trace s') = commands (trace s).
Proof.
  unfold run_poll.
  destruct (_close s) eqn:Hc; [cbn; rewrite ?Hc; repeat split|].
  destruct (_rx_queue s) eqn:Hq; cbn;
    rewrite ?Hc, ?Hq, ?commands_snoc, ?app_nil_r; repeat split.
Qed.

(** One [receive] result seen by a listener that waits in [receive]. *)
Lemma run_received_step order r s :
  listener s = InReceive ->
  let s' := run_received order r s in
  _avatar_queue s'
  = _avatar_queue s
    ++ map (exit_message order (_origin s)) (option_list (decoded r))
  /\ _origin s' = _origin s
  /\ _close s' = _close s
  /\ descriptors s' = descriptors s
  /\ _rx_queue s' = _rx_queue s
  /\ _tx_queue s' = _tx_queue s
  /\ calls s' = calls s
  /\ daemon s' = daemon s
  /\ commands (trace s') = commands (trace s).
Proof.
  intros Hl. unfold run_received. rewrite Hl.
  destruct r as [payload priority waited | e waited]; simpl.
  - unfold run_forward. unfold_methods. cbn.
    destruct (from_buffer_copy V7MInterruptExitReq.size payload) as [req|e|];
      cbn; rewrite ?app_nil_r; try (repeat split; fail).
    match goal with
    | |- context [run_poll ?x] =>
        destruct (run_poll_frame x)
          as (E1 & E2 & E3 & E4 & E5 & E6 & E7 & E8 & E9)
    end.
    rewrite E1, E2, E3, E4, E5, E6, E7, E8, E9. cbn.
    rewrite commands_snoc. cbn. rewrite app_nil_r. repeat split.
  - match goal with
    | |- context [run_poll ?x] =>
        destruct (run_poll_frame x)
          as (E1 & E2 & E3 & E4 & E5 & E6 & E7 & E8 & E9)
    end.
    rewrite E1, E2, E3, E4, E5, E6, E7, E8, E9. cbn. rewrite app_nil_r.
    repeat split.
Qed.

Lemma run_received_idle order r s :
  listener s <> InReceive -> run_received order r s = s.
Proof. intros H. unfold run_received. destruct (listener s); done. Qed.

Lemma foldl_run_received_idle order inputs s :
  listener s <> InReceive ->
  foldl (fun s r => run_received order r s) s inputs = s.
Proof.
  intros H. induction inputs as [|r inputs IH]; simpl; [done|].
  rewrite run_received_idle by done. exact IH.
Qed.


Lemma foldl_run_received_frame order inputs s :
  let s' := foldl (fun s r => run_received order r s) s inputs in
  _origin s' = _origin s
  /\ _close s' = _close s
  /\ descriptors s' = descriptors s
  /\ _rx_queue s' = _rx_queue s
  /\ _tx_queue s' = _tx_queue s
  /\ calls s' = calls s
  /\ daemon s' = daemon s
  /\ commands (trace s') = commands (trace s).
Proof.
  revert s. induction inputs as [|r inputs IH]; intros s; simpl.
  - repeat split.
  - destruct (listener s) eqn:Hl;
      try (rewrite run_received_idle by congruence; apply IH).
    destruct (run_received_step order r s Hl)
      as (_ & E2 & E3 & E4 & E5 & E6 & E7 & E8 & E9).
    destruct (IH (run_received order r s))
      as (F2 & F3 & F4 & F5 & F6 & F7 & F8 & F9).
    repeat split; congruence.
Qed.


(** X4.  The listener only reads [_close] and the rx queue: over any
    sequence of [receive] results it issues no monitor command, makes no
    call that opens, closes, unlinks or sends, and leaves [_close] and both
    queue attributes as they were. *)
Theorem run_frame (order : ByteOrder) (inputs : list Received) (s : Sys) :
  let s' := run order inputs s in
  _close s' = _close s
  /\ descriptors s' = descriptors s
  /\ _rx_queue s' = _rx_queue s
  /\ _tx_queue s' = _tx_queue s
  /\ calls s' = calls s
  /\ commands (trace s') = commands (trace s).
Proof.
  unfold run.
  destruct (foldl_run_received_frame order inputs
              (match listener s with AtLoopHead => run_poll s | _ => s end))
    as (_ & F3 & F4 & F5 & F6 & F7 & _ & F9).
  cbv zeta. rewrite F3, F4, F5, F6, F7, F9.
  destruct (listener s); try (repeat split; fail).
  destruct (run_poll_frame s) as (_ & _ & E3 & E4 & E5 & E6 & E7 & _ & E9).
  repeat split; assumption.
Qed.

(** X5.  Once [_close] is set, at most the one pending [receive] is still
    handled: every later result is ignored.  A listener at the head of its
    loop finishes at once; one that waits in [receive] finishes, or dies,
    with the first result. *)
Theorem run_after_close (order : ByteOrder) (inputs : list Received)
  (s : Sys) :
  _close s = true ->
  run order inputs s = run order (take 1 inputs) s
  /\ (listener s = AtLoopHead -> listener (run order inputs s) = Finished)
  /\ (listener s = InReceive -> inputs <> [] ->
      listener (run order inputs s) = Finished
      \/ exists e, listener (run order inputs s) = Died e).
Proof.
  intros Hc.
  assert (Hstep : forall r, listener s = InReceive ->
            listener (run_received order r s) = Finished
            \/ exists e, listener (run_received order r s) = Died e).
  { intros r Hl. unfold run_received. rewrite Hl.
    destruct r as [payload priority waited | e waited]; simpl.
    - unfold run_forward. unfold_methods. cbn.
      destruct (Nat.lt_ge_cases (length payload) V7MInterruptExitReq.size)
        as [H|H].
      + rewrite (from_buffer_copy_short _ _ H). cbn. eauto.
      + rewrite (from_buffer_copy_long _ _ H). cbn.
        unfold run_poll. cbn. rewrite Hc. cbn. auto.
    - unfold run_poll. cbn. rewrite Hc. cbn. auto. }
  unfold run. destruct (listener s) eqn:Hl.
  - rewrite !foldl_run_received_idle by congruence. repeat split; congruence.
  - assert (Hf : listener (run_poll s) = Finished)
      by (unfold run_poll; rewrite Hc; reflexivity).
    rewrite !foldl_run_received_idle by congruence.
    repeat split; congruence.
  - destruct inputs as [|r rest]; [repeat split; congruence|].
    simpl.
    assert (Hn : listener (run_received order r s) <> InReceive).
    { destruct (Hstep r eq_refl) as [H | [e H]]; congruence. }
    rewrite foldl_run_received_idle by exact Hn.
    split; [reflexivity|]. split; [congruence|].
    intros _ _. apply Hstep. reflexivity.
  - rewrite !foldl_run_received_idle by congruence. repeat split; congruence.
  - rewrite !foldl_run_received_idle by congruence. repeat split; congruence.
Qed.

Lemma run_after_close_witness :
  run little [exit_request 1 5 4294967289; exit_request 2 6 4294967289]
    stopping
  = run little
      (take 1 [exit_request 1 5 4294967289; exit_request 2 6 4294967289])
      stopping
  /\ (listener stopping = AtLoopHead ->
      listener
        (run little [exit_request 1 5 4294967289; exit_request 2 6 4294967289]
           stopping) = Finished)
  /\ (listener stopping = InReceive ->
      [exit_request 1 5 4294967289; exit_request 2 6 4294967289] <> [] ->
      listener
        (run little [exit_request 1 5 4294967289; exit_request 2 6 4294967289]
           stopping) = Finished
      \/ exists e,
          listener
            (run little
               [exit_request 1 5 4294967289; exit_request 2 6 4294967289]
               stopping) = Died e).
Proof.
  apply (run_after_close little
           [exit_request 1 5 4294967289; exit_request 2 6 4294967289]
           stopping).
  reflexivity.
Defined.

(** X6.  A message ends the listener exactly when its payload is shorter
    than the sixteen bytes of the record: nothing else that is received
    makes the thread die. *)
Theorem run_received_dies_iff_short (order : ByteOrder) (s : Sys)
  (payload : list byte) (priority waited : Z) :
  listener s = InReceive ->
  (exists e, listener (run_received order (message payload priority waited) s)
             = Died e)
  <-> (length payload < V7MInterruptExitReq.size)%nat.
Proof.
  intros Hl. unfold run_received. rewrite Hl.
  unfold run_forward. unfold_methods. cbn.
  destruct (Nat.lt_ge_cases (length payload) V7MInterruptExitReq.size) as [H|H].
  - rewrite (from_buffer_copy_short _ _ H). cbn. split; eauto.
  - rewrite (from_buffer_copy_long _ _ H). cbn.
    split; [|lia]. intros [e He]. exfalso. revert He.
    unfold run_poll. cbn. destruct (_close s); [discriminate|].
    destruct (_rx_queue s); discriminate.
Qed.

Lemma run_received_dies_iff_short_witness :
  (exists e,
      listener (run_received little (message [Byte.x01; Byte.x02] 0 0) enabled)
      = Died e)
  <-> (length [Byte.x01; Byte.x02] < V7MInterruptExitReq.size)%nat.
Proof.
  apply (run_received_dies_iff_short little enabled [Byte.x01; Byte.x02] 0 0).
  reflexivity.
Defined.

(** X7.  A payload that starts with the sixteen bytes of a request and
    goes on with any further bytes is accepted: the listener forwards the
    event of that request, [RemoteInterruptExitMessage(origin, id, type,
    num_irq)], and the further bytes are ignored. *)
Theorem run_received_request_with_trailing_bytes (order : ByteOrder)
  (s : Sys) (id num_irq type : Z) (trailing : list byte)
  (priority waited : Z) :
  listener s = InReceive ->
  0 <= id < 2 ^ 64 ->
  0 <= num_irq < 2 ^ 32 ->
  0 <= type < 2 ^ 32 ->
  _avatar_queue
    (run_received order
       (message (V7MInterruptExitReq.new order id num_irq type ++ trailing)
          priority waited) s)
  = _avatar_queue s ++ [RemoteInterruptExitMessage (_origin s) id type num_irq].
Proof.
  intros Hl Hid Hirq Hty.
  destruct (run_received_step order
              (message (V7MInterruptExitReq.new order id num_irq type
                        ++ trailing) priority waited) s Hl) as [Ha _].
  rewrite Ha. f_equal. unfold decoded.
  pose proof (length_V7MInterruptExitReq_new order id num_irq type) as Hlen.
  rewrite from_buffer_copy_long by (rewrite length_app; lia).
  rewrite take_app_length' by done. simpl. unfold exit_message.
  destruct (V7MInterruptExitReq_fields_new order id num_irq type)
    as (E1 & E2 & E3).
  rewrite E1, E2, E3, !Z.mod_small by lia. reflexivity.
Qed.

Lemma run_received_request_with_trailing_bytes_witness :
  _avatar_queue
    (run_received big
       (message (V7MInterruptExitReq.new big 9 11 4294967281
                 ++ [Byte.xff; Byte.x00; Byte.x7f]) 0 0) enabled)
  = _avatar_queue enabled
    ++ [RemoteInterruptExitMessage (_origin enabled) 9 4294967281 11].
Proof.
  apply (run_received_request_with_trailing_bytes big enabled 9 11 4294967281
           [Byte.xff; Byte.x00; Byte.x7f] 0 0);
    [reflexivity | lia | lia | lia].
Defined.

(** ** Further facts about the methods *)



(** X9.  When the [send] goes through, what is sent on the tx queue is one
    message of sixteen bytes whose fields read back as the [id] and the
    [success] that were passed; no descriptor is taken or given up and the
    avatar queue is not touched. *)
Theorem send_interrupt_exit_response_sends (order : ByteOrder) (env : Env)
  (s : Sys) (q : MessageQueue) (id success : Z) :
  _tx_queue s = Some q ->
  env (calls s) = None ->
  0 <= id < 2 ^ 64 ->
  0 <= success < 2 ^ 32 ->
  let r := send_interrupt_exit_response order env id success s in
  r.1 = Return true
  /\ (exists payload,
        channel_effects (trace r.2)
        = channel_effects (trace s) ++ [mq_send q payload None]
        /\ length payload = 16%nat
        /\ V7MInterruptExitResp.id order payload = id
        /\ V7MInterruptExitResp.success order payload = success)
  /\ descriptors r.2 = descriptors s
  /\ _avatar_queue r.2 = _avatar_queue s.
Proof.
  intros Hq Hcall Hid Hs r. subst r.
  unfold send_interrupt_exit_response. unfold_methods. cbn.
  rewrite Hq. cbn. rewrite Hcall. cbn.
  split; [reflexivity|]. split; [|split; reflexivity].
  exists (V7MInterruptExitResp.new order id success).
  destruct (V7MInterruptExitResp_fields_new order id success)
    as (Hlen & _ & E1 & E2).
  rewrite E1, E2, !Z.mod_small by lia.
  split; [|done].
  rewrite !channel_effects_snoc. cbn [is_channel_effect].
  rewrite app_nil_r. reflexivity.
Qed.

Lemma send_interrupt_exit_response_sends_witness :
  let r := send_interrupt_exit_response little all_succeed 3 1 enabled in
  r.1 = Return true
  /\ (exists payload,
        channel_effects (trace r.2)
        = channel_effects (trace enabled)
          ++ [mq_send {| mq_name := "/irq_tx"; mq_flags := O_WRONLY;
                         mq_read := false; mq_write := true |} payload None]
        /\ length payload = 16%nat
        /\ V7MInterruptExitResp.id little payload = 3
        /\ V7MInterruptExitResp.success little payload = 1)
  /\ descriptors r.2 = descriptors enabled
  /\ _avatar_queue r.2 = _avatar_queue enabled.
Proof.
  apply (send_interrupt_exit_response_sends little all_succeed enabled
           {| mq_name := "/irq_tx"; mq_flags := O_WRONLY;
              mq_read := false; mq_write := true |} 3 1);
    [reflexivity | reflexivity | lia | lia].
Defined.

(** X10.  Without a tx queue, before [enable_interrupts] or after
    [shutdown], [send_interrupt_exit_response] returns [False]: it makes no
    call into the queues and nothing is sent. *)
Theorem send_interrupt_exit_response_without_queue (order : ByteOrder)
  (env : Env) (s : Sys) (id success : Z) :
  _tx_queue s = None ->
  let r := send_interrupt_exit_response order env id success s in
  r.1 = Return false
  /\ channel_effects (trace r.2) = channel_effects (trace s)
  /\ calls r.2 = calls s
  /\ descriptors r.2 = descriptors s.
Proof.
  intros Hq r. subst r.
  unfold send_interrupt_exit_response. unfold_methods. cbn.
  rewrite Hq. cbn. rewrite channel_effects_snoc. cbn. rewrite app_nil_r.
  repeat split.
Qed.

Lemma send_interrupt_exit_response_without_queue_witness :
  let r := send_interrupt_exit_response little all_succeed 3 1 fresh in
  r.1 = Return false
  /\ channel_effects (trace r.2) = channel_effects (trace fresh)
  /\ calls r.2 = calls fresh
  /\ descriptors r.2 = descriptors fresh.
Proof.
  apply (send_interrupt_exit_response_without_queue little all_succeed fresh
           3 1).
  reflexivity.
Defined.

(** X11.  [enable_interrupts] returns [True] only when everything is in
    place: the origin is a [QemuTarget], the thread had not been started
    and is started now as a daemon, the rx queue is open read-only and the
    tx queue write-only under the names of the instance, and these are the
    two descriptors taken, with three calls made in all. *)
Theorem enable_interrupts_true (env : Env) (s : Sys) :
  (enable_interrupts env s).1 = Return true ->
  let s' := (enable_interrupts env s).2 in
  let rx := {| mq_name := _rx_queue_name s; mq_flags := O_RDONLY;
               mq_read := true; mq_write := false |} in
  let tx := {| mq_name := _tx_queue_name s; mq_flags := O_WRONLY;
               mq_read := false; mq_write := true |} in
  isinstance_QemuTarget (_origin s) = true
  /\ listener s = NotStarted
  /\ listener s' = AtLoopHead
  /\ daemon s' = true
  /\ _rx_queue s' = Some rx
  /\ _tx_queue s' = Some tx
  /\ descriptors s' = descriptors s ++ [rx; tx]
  /\ calls s' = (calls s + 3)%nat
  /\ _avatar_queue s' = _avatar_queue s
  /\ _close s' = _close s.
Proof.
  unfold enable_interrupts. unfold_methods.
  generalize (enable_irq_params s) as params. intros params.
  cbn. destruct (isinstance_QemuTarget (_origin s)) eqn:Hq; cbn;
    [|discriminate].
  case_env env; try discriminate.
  intros _. rewrite <- app_assoc. repeat split. lia.
Qed.

Lemma enable_interrupts_true_witness :
  let s' := (enable_interrupts all_succeed fresh).2 in
  let rx := {| mq_name := _rx_queue_name fresh; mq_flags := O_RDONLY;
               mq_read := true; mq_write := false |} in
  let tx := {| mq_name := _tx_queue_name fresh; mq_flags := O_WRONLY;
               mq_read := false; mq_write := true |} in
  isinstance_QemuTarget (_origin fresh) = true
  /\ listener fresh = NotStarted
  /\ listener s' = AtLoopHead
  /\ daemon s' = true
  /\ _rx_queue s' = Some rx
  /\ _tx_queue s' = Some tx
  /\ descriptors s' = descriptors fresh ++ [rx; tx]
  /\ calls s' = (calls fresh + 3)%nat
  /\ _avatar_queue s' = _avatar_queue fresh
  /\ _close s' = _close fresh.
Proof.
  apply (enable_interrupts_true all_succeed fresh).
  reflexivity.
Defined.

(** X12.  When the monitor command of [enable_interrupts] raises, the
    exception reaches the caller and nothing else was done: no queue
    opened, no thread started, both queue attributes as before. *)
Theorem enable_interrupts_monitor_failure (env : Env) (s : Sys) (e : PyExn) :
  isinstance_QemuTarget (_origin s) = true ->
  env (calls s) = Some e ->
  let r := enable_interrupts env s in
  r.1 = Raise e
  /\ channel_effects (trace r.2) = channel_effects (trace s)
  /\ descriptors r.2 = descriptors s
  /\ listener r.2 = listener s
  /\ _rx_queue r.2 = _rx_queue s
  /\ _tx_queue r.2 = _tx_queue s.
Proof.
  intros H H0 r. subst r.
  unfold enable_interrupts. unfold_methods.
  generalize (enable_irq_params s) as params. intros params.
  cbn. rewrite H. cbn. rewrite H0. cbn.
  rewrite channel_effects_snoc. cbn. rewrite app_nil_r. repeat split.
Qed.

Lemma enable_interrupts_monitor_failure_witness :
  let r := enable_interrupts monitor_refused fresh in
  r.1 = Raise OSError
  /\ channel_effects (trace r.2) = channel_effects (trace fresh)
  /\ descriptors r.2 = descriptors fresh
  /\ listener r.2 = listener fresh
  /\ _rx_queue r.2 = _rx_queue fresh
  /\ _tx_queue r.2 = _tx_queue fresh.
Proof.
  apply (enable_interrupts_monitor_failure monitor_refused fresh OSError);
    reflexivity.
Defined.

(** X13.  When the opening of the rx queue raises an [Exception],
    [enable_interrupts] returns [False] after that one attempt: the tx
    queue is not tried, no descriptor is held, no thread is started, and
    the error is logged. *)
Theorem enable_interrupts_rx_refused (env : Env) (s : Sys) (e : PyExn) :
  isinstance_QemuTarget (_origin s) = true ->
  env (calls s) = None ->
  env (S (calls s)) = Some e ->
  isinstance_Exception e = true ->
  let r := enable_interrupts env s in
  r.1 = Return false
  /\ channel_effects (trace r.2)
     = channel_effects (trace s)
       ++ [mq_open (_rx_queue_name s) O_RDONLY true false (Some e)]
  /\ log_record ERROR "Unable to create rx_queue: %s" [ArgExn e] ∈ trace r.2
  /\ descriptors r.2 = descriptors s
  /\ listener r.2 = listener s
  /\ _rx_queue r.2 = _rx_queue s
  /\ _tx_queue r.2 = _tx_queue s.
Proof.
  intros H H0 H1 He r. subst r.
  unfold enable_interrupts. unfold_methods.
  generalize (enable_irq_params s) as params. intros params.
  cbn. rewrite H. cbn. rewrite H0. cbn. rewrite H1. cbn. rewrite He. cbn.
  split; [reflexivity|]. split; [|split; [|repeat split]].
  - rewrite !channel_effects_snoc. cbn. rewrite !app_nil_r. reflexivity.
  - rewrite !elem_of_app, !list_elem_of_singleton. auto.
Qed.

Lemma enable_interrupts_rx_refused_witness :
  let r := enable_interrupts rx_refused fresh in
  r.1 = Return false
  /\ channel_effects (trace r.2)
     = channel_effects (trace fresh)
       ++ [mq_open (_rx_queue_name fresh) O_RDONLY true false
             (Some PermissionsError)]
  /\ log_record ERROR "Unable to create rx_queue: %s"
       [ArgExn PermissionsError] ∈ trace r.2
  /\ descriptors r.2 = descriptors fresh
  /\ listener r.2 = listener fresh
  /\ _rx_queue r.2 = _rx_queue fresh
  /\ _tx_queue r.2 = _tx_queue fresh.
Proof.
  apply (enable_interrupts_rx_refused rx_refused fresh PermissionsError);
    reflexivity.
Defined.

(** X14.  [enable_interrupts] on an instance whose thread was started
    before does not return: with the monitor and both openings succeeding it
    raises [RuntimeError], after it has issued the command once more and
    taken two further descriptors, which it does not give back. *)
Theorem enable_interrupts_again (env : Env) (s : Sys) :
  isinstance_QemuTarget (_origin s) = true ->
  listener s <> NotStarted ->
  env (calls s) = None ->
  env (S (calls s)) = None ->
  env (S (S (calls s))) = None ->
  let r := enable_interrupts env s in
  let rx := {| mq_name := _rx_queue_name s; mq_flags := O_RDONLY;
               mq_read := true; mq_write := false |} in
  let tx := {| mq_name := _tx_queue_name s; mq_flags := O_WRONLY;
               mq_read := false; mq_write := true |} in
  r.1 = Raise RuntimeError
  /\ descriptors r.2 = descriptors s ++ [rx; tx]
  /\ listener r.2 = listener s
  /\ commands (trace r.2)
     = commands (trace s)
       ++ [("avatar-armv7m-enable-irq"%string, enable_irq_params s)].
Proof.
  intros H Hl H0 H1 H2 r. subst r.
  unfold enable_interrupts. unfold_methods.
  generalize (enable_irq_params s) as params. intros params.
  cbn. rewrite H. cbn. rewrite H0. cbn. rewrite H1. cbn. rewrite H2. cbn.
  destruct (listener s) eqn:Hls; [congruence|..]; cbn;
    rewrite !commands_snoc; cbn; rewrite ?app_nil_r, <- ?app_assoc;
    repeat split; assumption.
Qed.

Lemma enable_interrupts_again_witness :
  let r := enable_interrupts all_succeed enabled in
  let rx := {| mq_name := _rx_queue_name enabled; mq_flags := O_RDONLY;
               mq_read := true; mq_write := false |} in
  let tx := {| mq_name := _tx_queue_name enabled; mq_flags := O_WRONLY;
               mq_read := false; mq_write := true |} in
  r.1 = Raise RuntimeError
  /\ descriptors r.2 = descriptors enabled ++ [rx; tx]
  /\ listener r.2 = listener enabled
  /\ commands (trace r.2)
     = commands (trace enabled)
       ++ [("avatar-armv7m-enable-irq"%string, enable_irq_params enabled)].
Proof.
  apply (enable_interrupts_again all_succeed enabled);
    [reflexivity | discriminate | reflexivity | reflexivity | reflexivity].
Defined.

(** X15.  On a [QemuTarget], [inject_interrupt] does not catch what the
    monitor raises: it returns [None] when the command succeeds and raises
    the exception of the command otherwise, and ["Done"] is printed only
    in the first case. *)
Theorem inject_interrupt_outcome (env : Env) (s : Sys)
  (interrupt_number : Z) (cpu_number : option Z) :
  isinstance_QemuTarget (_origin s) = true ->
  let r := inject_interrupt env interrupt_number cpu_number s in
  r.1 = match env (calls s) with Some e => Raise e | None => Return tt end
  /\ (print "Done" ∈ trace r.2
      <-> print "Done" ∈ trace s \/ env (calls s) = None).
Proof.
  intros H r. subst r.
  unfold inject_interrupt. unfold_methods. cbn. rewrite H. cbn.
  destruct (env (calls s)) as [e|] eqn:Hc; cbn.
  - split; [reflexivity|]. rewrite !elem_of_app, !list_elem_of_singleton.
    split; [intros [[?|?]|?]; try discriminate; auto|].
    intros [?|?]; [auto|discriminate].
  - split; [reflexivity|]. rewrite !elem_of_app, !list_elem_of_singleton.
    split; auto.
Qed.

Lemma inject_interrupt_outcome_witness :
  let r := inject_interrupt monitor_refused 7 None fresh in
  r.1 = match monitor_refused (calls fresh) with
        | Some e => Raise e
        | None => Return tt
        end
  /\ (print "Done" ∈ trace r.2
      <-> print "Done" ∈ trace fresh \/ monitor_refused (calls fresh) = None).
Proof.
  apply (inject_interrupt_outcome monitor_refused fresh 7 None).
  reflexivity.
Defined.

(** ** Further facts about stop and shutdown *)

(** [stop] sets [_close] and otherwise only waits: it makes no call into
    the monitor or the queues and leaves the queue attributes and the
    descriptors alone. *)
Lemma stop_frame order pending s :
  let s1 := (stop order pending s).2 in
  _close s1 = true
  /\ calls s1 = calls s
  /\ _rx_queue s1 = _rx_queue s
  /\ _tx_queue s1 = _tx_queue s
  /\ descriptors s1 = descriptors s
  /\ channel_effects (trace s1) = channel_effects (trace s).
Proof.
  unfold stop, closed_wait. unfold_methods. cbn.
  destruct (_closed s) eqn:Hclosed; [cbn; repeat split|].
  assert (Hsnd : forall (c : bool) (a b : Outcome unit) (x : Sys),
             (if c then (a, x) else (b, x)).2 = x)
    by (intros [] ? ? ?; reflexivity).
  rewrite Hsnd. clear Hsnd.
  destruct (listener s) eqn:Hl; cbn; try (repeat split; fail).
  unfold run_received. cbn. rewrite Hl.
  destruct pending as [payload priority waited | e waited]; simpl.
  - unfold run_forward. unfold_methods. cbn.
    destruct (from_buffer_copy V7MInterruptExitReq.size payload)
      as [req|e|]; cbn; try (repeat split; fail).
    rewrite channel_effects_snoc. cbn. rewrite app_nil_r. repeat split.
  - repeat split.
Qed.

Lemma set_close_id s : _close s = true -> set_close true s = s.
Proof. destruct s. simpl. intros ->. reflexivity. Qed.

(** The state in which [stop] returns on a running listener. *)
Lemma stop_running_frame order pending s :
  listener s = AtLoopHead \/ listener s = InReceive ->
  decodable pending ->
  exists s1,
    stop order pending s = (Return tt, s1)
    /\ _closed s1 = true
    /\ _close s1 = true
    /\ calls s1 = calls s
    /\ _rx_queue s1 = _rx_queue s
    /\ _tx_queue s1 = _tx_queue s
    /\ descriptors s1 = descriptors s
    /\ channel_effects (trace s1) = channel_effects (trace s).
Proof.
  intros Hl Hp.
  destruct (stop_running order pending s Hl Hp) as (s1 & Hs1 & Hc1 & _).
  pose proof (stop_frame order pending s) as F.
  rewrite Hs1 in F. simpl in F.
  exists s1. split; [exact Hs1|]. split; [exact Hc1|]. exact F.
Qed.

(** X16.  [shutdown] on a running instance whose four teardown calls
    succeed unlinks and closes the rx queue, then the tx queue, gives both
    descriptors back and clears both attributes; a second [shutdown] then
    returns at once and changes nothing: it makes no call and raises
    nothing. *)
Theorem shutdown_twice_releases (order : ByteOrder) (env : Env)
  (pending pending' : Received) (s : Sys) (rx tx : MessageQueue) :
  listener s = AtLoopHead \/ listener s = InReceive ->
  decodable pending ->
  _rx_queue s = Some rx ->
  _tx_queue s = Some tx ->
  env (calls s) = None ->
  env (S (calls s)) = None ->
  env (S (S (calls s))) = None ->
  env (S (S (S (calls s)))) = None ->
  let once := shutdown order env pending s in
  let twice := shutdown order env pending' once.2 in
  once.1 = Return tt
  /\ _rx_queue once.2 = None
  /\ _tx_queue once.2 = None
  /\ descriptors once.2 = release tx (release rx (descriptors s))
  /\ channel_effects (trace once.2)
     = channel_effects (trace s)
       ++ [mq_unlink rx None; mq_close rx None;
           mq_unlink tx None; mq_close tx None]
  /\ twice = (Return tt, once.2).
Proof.
  intros Hl Hp Hrx Htx H0 H1 H2 H3 once twice.
  destruct (stop_running_frame order pending s Hl Hp)
    as (s1 & Hs1 & Hcd & Hc & Hcalls & Erx & Etx & Ed & Et).
  assert (Honce : exists s2,
             once = (Return tt, s2)
             /\ _closed s2 = true /\ _close s2 = true
             /\ _rx_queue s2 = None /\ _tx_queue s2 = None
             /\ descriptors s2 = release tx (release rx (descriptors s))
             /\ channel_effects (trace s2)
                = channel_effects (trace s)
                  ++ [mq_unlink rx None; mq_close rx None;
                      mq_unlink tx None; mq_close tx None]).
  { subst once. unfold shutdown. unfold mbind, M_bind. rewrite Hs1.
    unfold_methods. cbn.
    rewrite Erx, Hrx. cbn. rewrite Hcalls, H0. cbn. rewrite H1. cbn.
    rewrite Etx, Htx. cbn. rewrite H2. cbn. rewrite H3. cbn.
    eexists. split; [reflexivity|]. cbn.
    rewrite !channel_effects_snoc. cbn.
    rewrite Ed, Et, <- !app_assoc. repeat split; assumption. }
  destruct Honce as (s2 & Ho & Hcd2 & Hc2 & Hrx2 & Htx2 & Hd2 & Ht2).
  subst twice. rewrite Ho. simpl.
  repeat split; try assumption.
  rewrite (shutdown_again order env pending' s2 Hcd2 Hrx2 Htx2).
  rewrite (set_close_id s2 Hc2). reflexivity.
Qed.

Lemma shutdown_twice_releases_witness :
  let rx := {| mq_name := "/irq_rx"; mq_flags := O_RDONLY;
               mq_read := true; mq_write := false |} in
  let tx := {| mq_name := "/irq_tx"; mq_flags := O_WRONLY;
               mq_read := false; mq_write := true |} in
  let once := shutdown little all_succeed timed_out enabled in
  let twice := shutdown little all_succeed timed_out once.2 in
  once.1 = Return tt
  /\ _rx_queue once.2 = None
  /\ _tx_queue once.2 = None
  /\ descriptors once.2 = release tx (release rx (descriptors enabled))
  /\ channel_effects (trace once.2)
     = channel_effects (trace enabled)
       ++ [mq_unlink rx None; mq_close rx None;
           mq_unlink tx None; mq_close tx None]
  /\ twice = (Return tt, once.2).
Proof.
  apply (shutdown_twice_releases little all_succeed timed_out timed_out
           enabled);
    [right; reflexivity | exact I | reflexivity | reflexivity
    | reflexivity | reflexivity | reflexivity | reflexivity].
Defined.

(** X17.  When the [unlink] of the rx queue finds no queue
    ([ExistentialError]), [shutdown] logs a warning and goes on to the tx
    queue, which it unlinks and closes, and returns; but the [close] of the
    rx queue is skipped with the rest of the [try] block: its descriptor
    stays open and [_rx_queue] stays set. *)
Theorem shutdown_rx_already_unlinked (order : ByteOrder) (env : Env)
  (pending : Received) (s : Sys) (rx tx : MessageQueue) :
  listener s = AtLoopHead \/ listener s = InReceive ->
  decodable pending ->
  _rx_queue s = Some rx ->
  _tx_queue s = Some tx ->
  env (calls s) = Some ExistentialError ->
  env (S (calls s)) = None ->
  env (S (S (calls s))) = None ->
  let r := shutdown order env pending s in
  r.1 = Return tt
  /\ _rx_queue r.2 = Some rx
  /\ _tx_queue r.2 = None
  /\ descriptors r.2 = release tx (descriptors s)
  /\ channel_effects (trace r.2)
     = channel_effects (trace s)
       ++ [mq_unlink rx (Some ExistentialError);
           mq_unlink tx None; mq_close tx None]
  /\ log_record WARNING "Tried to close/unlink non existent rx_queue" []
     ∈ trace r.2.
Proof.
  intros Hl Hp Hrx Htx H0 H1 H2 r.
  destruct (stop_running_frame order pending s Hl Hp)
    as (s1 & Hs1 & Hcd & Hc & Hcalls & Erx & Etx & Ed & Et).
  subst r. unfold shutdown. unfold mbind, M_bind. rewrite Hs1.
  unfold_methods. cbn.
  rewrite Erx, Hrx. cbn. rewrite Hcalls, H0. cbn.
  rewrite Etx, Htx. cbn. rewrite H1. cbn. rewrite H2. cbn.
  rewrite !channel_effects_snoc. cbn.
  rewrite Ed, Et, !app_nil_r, <- !app_assoc.
  split; [reflexivity|]. split; [congruence|]. split; [reflexivity|].
  split; [reflexivity|]. split; [reflexivity|].
  rewrite !elem_of_app, !list_elem_of_singleton. auto 10.
Qed.

Lemma shutdown_rx_already_unlinked_witness :
  let rx := {| mq_name := "/irq_rx"; mq_flags := O_RDONLY;
               mq_read := true; mq_write := false |} in
  let tx := {| mq_name := "/irq_tx"; mq_flags := O_WRONLY;
               mq_read := false; mq_write := true |} in
  let r := shutdown little rx_gone timed_out enabled in
  r.1 = Return tt
  /\ _rx_queue r.2 = Some rx
  /\ _tx_queue r.2 = None
  /\ descriptors r.2 = release tx (descriptors enabled)
  /\ channel_effects (trace r.2)
     = channel_effects (trace enabled)
       ++ [mq_unlink rx (Some ExistentialError);
           mq_unlink tx None; mq_close tx None]
  /\ log_record WARNING "Tried to close/unlink non existent rx_queue" []
     ∈ trace r.2.
Proof.
  apply (shutdown_rx_already_unlinked little rx_gone timed_out enabled);
    [right; reflexivity | exact I | reflexivity | reflexivity
    | reflexivity | reflexivity | reflexivity].
Defined.

(** X18.  Only [ExistentialError] is tolerated in the teardown: when the
    [unlink] of the rx queue raises anything else, [shutdown] raises it,
    and the tx queue is not torn down: it is neither unlinked nor closed,
    and both attributes and all descriptors are as before. *)
Theorem shutdown_rx_unlink_error (order : ByteOrder) (env : Env)
  (pending : Received) (s : Sys) (rx : MessageQueue) (e : PyExn) :
  listener s = AtLoopHead \/ listener s = InReceive ->
  decodable pending ->
  _rx_queue s = Some rx ->
  env (calls s) = Some e ->
  isinstance_ExistentialError e = false ->
  let r := shutdown order env pending s in
  r.1 = Raise e
  /\ _rx_queue r.2 = Some rx
  /\ _tx_queue r.2 = _tx_queue s
  /\ descriptors r.2 = descriptors s
  /\ channel_effects (trace r.2)
     = channel_effects (trace s) ++ [mq_unlink rx (Some e)].
Proof.
  intros Hl Hp Hrx H0 He r.
  destruct (stop_running_frame order pending s Hl Hp)
    as (s1 & Hs1 & Hcd & Hc & Hcalls & Erx & Etx & Ed & Et).
  subst r. unfold shutdown. unfold mbind, M_bind. rewrite Hs1.
  unfold_methods. cbn.
  rewrite Erx, Hrx. cbn. rewrite Hcalls, H0. cbn. rewrite He. cbn.
  rewrite !channel_effects_snoc. cbn.
  rewrite Ed, Et, Etx, ?app_nil_r.
  split; [reflexivity|]. split; [congruence|]. repeat split.
Qed.

Lemma shutdown_rx_unlink_error_witness :
  let rx := {| mq_name := "/irq_rx"; mq_flags := O_RDONLY;
               mq_read := true; mq_write := false |} in
  let r := shutdown little rx_unlink_denied timed_out enabled in
  r.1 = Raise PermissionsError
  /\ _rx_queue r.2 = Some rx
  /\ _tx_queue r.2 = _tx_queue enabled
  /\ descriptors r.2 = descriptors enabled
  /\ channel_effects (trace r.2)
     = channel_effects (trace enabled)
       ++ [mq_unlink rx (Some PermissionsError)].
Proof.
  apply (shutdown_rx_unlink_error little rx_unlink_denied timed_out enabled);
    [right; reflexivity | exact I | reflexivity | reflexivity | reflexivity].
Defined.
